(** * TG-weather-bot: the request pipeline of [weather_bot.py] and
      [weather_bot_cloud.py]

    A shallow embedding of the [WeatherBot] class: the icon selection
    ([get_weather_emoji]), the message formatter ([format_weather_message]),
    the fetcher ([get_weather_data]) and the three handlers that reply to
    the user ([weather_command], [handle_message], [get_weather]).

    Python values that come out of [response.json()] are modelled by the
    type [json]; a Python [str] is a [string] holding its UTF-8 bytes; a
    raised exception is the [Raise] case of [result]; what a handler does
    to the outside world (chat action, HTTP request, reply, log record) is
    the list of [event]s it emits, in order.  The two source files differ in
    one expression of the formatter only, so they share one embedding indexed
    by [source_file]. *)

From Stdlib Require Import String Ascii ZArith List Bool Lia.
From Stdlib Require Import DecimalString.
From Stdlib Require Import Uint63 Floats.PrimFloat Floats.SpecFloat Floats.FloatOps.
Import ListNotations.

Local Open Scope list_scope.
Local Open Scope string_scope.
Local Open Scope Z_scope.

(* ================================================================== *)
(** ** Python strings *)

Module PyStr.

(** The line feed written ["\n"] in the source. *)
Definition nl : string := String "010" EmptyString.

Definition code (c : ascii) : nat := nat_of_ascii c.

Definition is_upper (c : ascii) : bool :=
  (Nat.leb 65 (code c) && Nat.leb (code c) 90)%bool.

Definition is_lower (c : ascii) : bool :=
  (Nat.leb 97 (code c) && Nat.leb (code c) 122)%bool.

Definition is_letter (c : ascii) : bool := (is_upper c || is_lower c)%bool.

Definition to_upper (c : ascii) : ascii :=
  if is_lower c then ascii_of_nat (code c - 32) else c.

Definition to_lower (c : ascii) : ascii :=
  if is_upper c then ascii_of_nat (code c + 32) else c.

Fixpoint is_ascii (s : string) : bool :=
  match s with
  | EmptyString => true
  | String c s' => (Nat.ltb (code c) 128 && is_ascii s')%bool
  end.

Fixpoint lower (s : string) : string :=
  match s with
  | EmptyString => EmptyString
  | String c s' => String (to_lower c) (lower s')
  end.

(** [str.title()] as CPython computes it, on ASCII text: a cased
    character that follows an uncased one (or starts the string) is put in
    upper case, a cased character that follows a cased one in lower case,
    anything else is copied and ends the word. *)
Fixpoint title_from (previous_is_cased : bool) (s : string) : string :=
  match s with
  | EmptyString => EmptyString
  | String c s' =>
      if is_lower c then
        String (if previous_is_cased then c else to_upper c)
               (title_from true s')
      else if is_upper c then
        String (if previous_is_cased then to_lower c else c)
               (title_from true s')
      else String c (title_from false s')
  end.

Definition title_ascii (s : string) : string := title_from false s.

(** What "title case" asks of a text: the first letter of every word is a
    capital and the other letters of the word are small. *)
Fixpoint title_cased_from (previous_is_letter : bool) (s : string) : bool :=
  match s with
  | EmptyString => true
  | String c s' =>
      ((if previous_is_letter then negb (is_upper c) else negb (is_lower c))
       && title_cased_from (is_letter c) s')%bool
  end.

Definition title_cased (s : string) : bool := title_cased_from false s.

(** [str(n)] for a Python [int]. *)
Definition int_str (n : Z) : string := NilZero.string_of_int (Z.to_int n).

(** Number of bytes of the UTF-8 sequence that starts with byte [c]. *)
Definition utf8_width (c : ascii) : nat :=
  if Nat.ltb (code c) 128 then 1%nat
  else if Nat.ltb (code c) 224 then 2%nat
  else if Nat.ltb (code c) 240 then 3%nat
  else 4%nat.

(** [s[0]]: the first character, when there is one. *)
Definition first_char (s : string) : option string :=
  match s with
  | EmptyString => None
  | String c _ => Some (substring 0 (utf8_width c) s)
  end.

Definition of_bytes (l : list nat) : string :=
  string_of_list_ascii (map ascii_of_nat l).

Definition reverse (s : string) : string :=
  string_of_list_ascii (rev (list_ascii_of_string s)).

(** The characters [str.isspace] accepts, as the UTF-8 sequences of
    U+0009..U+000D, U+001C..U+001F, U+0020, U+0085, U+00A0, U+1680,
    U+2000..U+200A, U+2028, U+2029, U+202F, U+205F and U+3000. *)
Definition whitespace : list string :=
  map of_bytes
    ([[9]; [10]; [11]; [12]; [13]; [28]; [29]; [30]; [31]; [32];
      [194; 133]; [194; 160]; [225; 154; 128]]
     ++ map (fun b => [226; 128; b]) (seq 128 11)
     ++ [[226; 128; 168]; [226; 128; 169]; [226; 128; 175];
         [226; 129; 159]; [227; 128; 128]])%nat%list.

Fixpoint drop_prefix (p s : string) : option string :=
  match p, s with
  | EmptyString, _ => Some s
  | String a p', String b s' =>
      if Ascii.eqb a b then drop_prefix p' s' else None
  | String _ _, EmptyString => None
  end.

Fixpoint drop_any (ps : list string) (s : string) : option string :=
  match ps with
  | [] => None
  | p :: ps' =>
      match drop_prefix p s with
      | Some rest => Some rest
      | None => drop_any ps' s
      end
  end.

(** Drops leading members of [ps]; one unit of fuel per member dropped. *)
Fixpoint lstrip_fuel (ps : list string) (fuel : nat) (s : string) : string :=
  match fuel with
  | O => s
  | S fuel' =>
      match drop_any ps s with
      | Some rest => lstrip_fuel ps fuel' rest
      | None => s
      end
  end.

Definition lstrip (s : string) : string :=
  lstrip_fuel whitespace (String.length s) s.

Definition rstrip (s : string) : string :=
  reverse (lstrip_fuel (map reverse whitespace) (String.length s) (reverse s)).

(** [s.strip()]. *)
Definition strip (s : string) : string := rstrip (lstrip s).

(** [s.startswith(p)]. *)
Definition startswith (s p : string) : bool := String.prefix p s.

(** [sep.join(parts)]. *)
Definition join (sep : string) (parts : list string) : string :=
  String.concat sep parts.

End PyStr.

(* ================================================================== *)
(** ** Python values, exceptions and the operations the bot applies *)

(** What [response.json()] can return.  Python's [None] is [JNull]; a
    [dict] is its list of items, looked up by key. *)
#[warnings="-register-all"]
Inductive json : Type :=
| JNull
| JBool (b : bool)
| JInt (n : Z)
| JFloat (f : float)
| JStr (s : string)
| JArr (items : list json)
| JObj (items : list (string * json)).

Inductive exn : Type :=
| KeyError (key : string)
| IndexError
| TypeError
| AttributeError
| PlainException (message : string)   (* [Exception(message)] *)
| ClientError (cause : string).       (* raised inside aiohttp *)

Inductive result (A : Type) : Type :=
| Ok (a : A)
| Raise (e : exn).

Arguments Ok {A} a.
Arguments Raise {A} e.

Definition rbind {A B : Type} (r : result A) (k : A -> result B) : result B :=
  match r with
  | Ok a => k a
  | Raise e => Raise e
  end.

Declare Scope result_scope.
Delimit Scope result_scope with result.
Notation "x <- r ;; k" := (rbind r (fun x => k))
  (at level 61, r at next level, right associativity) : result_scope.

(** The part of the interpreter the embedding leaves open: [repr] of a
    [float], [str] of a [list] or [dict], and [str.title] outside ASCII.
    On ASCII text [str.title] is [PyStr.title_ascii]. *)
Class PyRuntime : Type := {
  float_repr : float -> string;
  container_str : json -> string;
  str_title : string -> string;
  str_title_ascii :
    forall s, PyStr.is_ascii s = true -> str_title s = PyStr.title_ascii s
}.

Module Py.

Fixpoint dict_lookup (key : string) (items : list (string * json))
  : option json :=
  match items with
  | [] => None
  | (k, v) :: items' =>
      if String.eqb key k then Some v else dict_lookup key items'
  end.

(** [v[key]] with a [str] key. *)
Definition getitem (v : json) (key : string) : result json :=
  match v with
  | JObj items =>
      match dict_lookup key items with
      | Some x => Ok x
      | None => Raise (KeyError key)
      end
  | _ => Raise TypeError
  end.

(** [v[0]]. *)
Definition getitem0 (v : json) : result json :=
  match v with
  | JArr items =>
      match items with
      | x :: _ => Ok x
      | [] => Raise IndexError
      end
  | JStr s =>
      match PyStr.first_char s with
      | Some c => Ok (JStr c)
      | None => Raise IndexError
      end
  | JObj _ => Raise (KeyError "0")
  | _ => Raise TypeError
  end.

(** [v.get(key, default)]: only a [dict] has the method. *)
Definition get (v : json) (key : string) (default : json) : result json :=
  match v with
  | JObj items =>
      match dict_lookup key items with
      | Some x => Ok x
      | None => Ok default
      end
  | _ => Raise AttributeError
  end.

(** [v.title()]: only a [str] has the method. *)
Definition title `{PyRuntime} (v : json) : result json :=
  match v with
  | JStr s => Ok (JStr (str_title s))
  | _ => Raise AttributeError
  end.

(** [f"{v}"], that is [str(v)]. *)
Definition str `{PyRuntime} (v : json) : string :=
  match v with
  | JNull => "None"
  | JBool true => "True"
  | JBool false => "False"
  | JInt n => PyStr.int_str n
  | JFloat f => float_repr f
  | JStr s => s
  | JArr _ | JObj _ => container_str v
  end.

Definition float_of_int (n : Z) : float := PrimFloat.of_uint63 (Uint63.of_Z n).

(** [v < n] for an [int] literal [n]; [bool] is a subclass of [int]. *)
Definition lt_int (v : json) (n : Z) : result bool :=
  match v with
  | JInt a => Ok (a <? n)
  | JBool b => Ok (Z.b2z b <? n)
  | JFloat f => Ok (PrimFloat.ltb f (float_of_int n))
  | _ => Raise TypeError
  end.

(** [v == n] for an [int] literal [n]. *)
Definition eq_int (v : json) (n : Z) : bool :=
  match v with
  | JInt a => a =? n
  | JBool b => Z.b2z b =? n
  | JFloat f => PrimFloat.eqb f (float_of_int n)
  | _ => false
  end.

(** [v is None]. *)
Definition is_None (v : json) : bool :=
  match v with
  | JNull => true
  | _ => false
  end.

End Py.

(* ================================================================== *)
(** ** [WeatherBot.get_weather_emoji] *)

Local Open Scope result_scope.

Definition get_weather_emoji (weather_id : json) : result string :=
  b300 <- Py.lt_int weather_id 300 ;;
  if b300 then Ok "⛈️"
  else
    b400 <- Py.lt_int weather_id 400 ;;
    if b400 then Ok "🌦️"
    else
      b600 <- Py.lt_int weather_id 600 ;;
      if b600 then Ok "🌧️"
      else
        b700 <- Py.lt_int weather_id 700 ;;
        if b700 then Ok "❄️"
        else
          b800 <- Py.lt_int weather_id 800 ;;
          if b800 then Ok "🌫️"
          else if Py.eq_int weather_id 800 then Ok "☀️"
          else Ok "☁️".

(* ================================================================== *)
(** ** The bot's effects *)

(** What a handler does to the outside world, in the order it does it. *)
Inductive event : Type :=
| ChatAction (action : string)
    (* [update.message.reply_chat_action(action=...)] *)
| ReplyText (text : string)
    (* [update.message.reply_text(...)] *)
| HttpGet (url : string) (params : list (string * string))
    (* [session.get(url, params=...)] *)
| LogError (context : string) (e : exn).
    (* [logger.error(f"<context>: {e}")] *)

(** What the weather provider answers to one [session.get]: a response with
    a status and the outcome of [response.json()] on its body, or a failure
    raised by the HTTP client before any response (time-out, DNS, refused
    connection). *)
Inductive http_outcome : Type :=
| Responded (status : Z) (body : result json)
| Failed (cause : string).

(** A coroutine of the bot: the events it emitted and how it ended.  The
    messaging platform is outside the bot: its calls are taken to succeed. *)
Definition io (A : Type) : Type := (list event * result A)%type.

Definition ret {A : Type} (a : A) : io A := ([], Ok a).

Definition raise {A : Type} (e : exn) : io A := ([], Raise e).

Definition emit (ev : event) : io unit := ([ev], Ok tt).

Definition lift {A : Type} (r : result A) : io A := ([], r).

Definition bind {A B : Type} (m : io A) (k : A -> io B) : io B :=
  match m with
  | (evs, Ok a) => let (evs', r) := k a in (evs ++ evs', r)%list
  | (evs, Raise e) => (evs, Raise e)
  end.

(** [try: body  except Exception as e: handler(e)]. *)
Definition try_except {A : Type} (body : io A) (handler : exn -> io A) : io A :=
  match body with
  | (evs, Ok a) => (evs, Ok a)
  | (evs, Raise e) => let (evs', r) := handler e in (evs ++ evs', r)%list
  end.

Declare Scope io_scope.
Delimit Scope io_scope with io.
Notation "x <- m ;; k" := (bind m (fun x => k))
  (at level 61, m at next level, right associativity) : io_scope.
Notation "m ;; k" := (bind m (fun _ => k))
  (at level 61, right associativity) : io_scope.

Definition events {A : Type} (m : io A) : list event := fst m.
Definition outcome {A : Type} (m : io A) : result A := snd m.

Definition is_reply (ev : event) : bool :=
  match ev with
  | ReplyText _ => true
  | _ => false
  end.

Definition is_request (ev : event) : bool :=
  match ev with
  | HttpGet _ _ => true
  | _ => false
  end.

(** The texts sent to the user, in order. *)
Fixpoint replies (evs : list event) : list string :=
  match evs with
  | [] => []
  | ReplyText text :: evs' => text :: replies evs'
  | _ :: evs' => replies evs'
  end.

(** The values of the [q] parameter sent upstream, in order. *)
Fixpoint queried_cities (evs : list event) : list string :=
  match evs with
  | [] => []
  | HttpGet _ params :: evs' =>
      match find (fun kv => String.eqb (fst kv) "q") params with
      | Some (_, city) => city :: queried_cities evs'
      | None => queried_cities evs'
      end
  | _ :: evs' => queried_cities evs'
  end.

(* ================================================================== *)
(** ** [class WeatherBot] *)

(** The two files of the repository. *)
Inductive source_file : Type :=
| weather_bot
| weather_bot_cloud.

(** The attributes [__init__] sets. *)
Record WeatherBot : Type := {
  telegram_token : string;
  weather_api_key : string;
  weather_base_url : string
}.

Section Bot.

Context {runtime : PyRuntime}.
Variable file : source_file.
Variable self : WeatherBot.
(** The provider, as a function of the request. *)
Variable upstream : string -> list (string * string) -> http_outcome.

Import PyStr.

(** [async def start]. *)
Definition start : io unit :=
  let welcome_message :=
    "🌤️ Welcome to Weather Bot! 🌤️" ++ nl ++ nl ++
    "I can help you get weather information for any city." ++ nl ++ nl ++
    "Commands:" ++ nl ++
    "/start - Show this welcome message" ++ nl ++
    "/help - Show help information" ++ nl ++
    "/weather <city> - Get weather for a specific city" ++ nl ++ nl ++
    "You can also just send me a city name and I'll get the weather for you!"
  in
  emit (ReplyText welcome_message).

(** [async def help_command]. *)
Definition help_command : io unit :=
  let help_text :=
    "🆘 Help - Weather Bot" ++ nl ++ nl ++
    "How to use:" ++ nl ++
    "• Send /weather followed by city name" ++ nl ++
    "• Example: /weather London" ++ nl ++
    "• Or just send: London" ++ nl ++ nl ++
    "I'll provide:" ++ nl ++
    "• Current temperature" ++ nl ++
    "• Weather description" ++ nl ++
    "• Humidity and pressure" ++ nl ++
    "• Wind speed" ++ nl ++
    "• Feels like temperature"
  in
  emit (ReplyText help_text).

(** The [params] dictionary of [get_weather_data]. *)
Definition request_params (city_name : string) : list (string * string) :=
  [("q", city_name); ("appid", weather_api_key self); ("units", "metric")].

(** [async def get_weather_data]. *)
Definition get_weather_data (city_name : string) : io json :=
  let params := request_params city_name in
  try_except
    (emit (HttpGet (weather_base_url self) params) ;;
     match upstream (weather_base_url self) params with
     | Responded status body =>
         if status =? 200 then lift body
         else if status =? 404 then ret JNull
         else raise (PlainException
                       ("API request failed with status " ++ int_str status))
     | Failed cause => raise (ClientError cause)
     end)%io
    (fun e =>
       (emit (LogError "Error fetching weather data" e) ;;
        raise e)%io).

(** The object whose ['wind'] entry is read: line 80 of [weather_bot.py],
    line 81 of [weather_bot_cloud.py]. *)
Definition wind_holder (weather_data : json) : result json :=
  match file with
  | weather_bot => Py.getitem weather_data "main"
  | weather_bot_cloud => Ok weather_data
  end.

(** [def format_weather_message]. *)
Definition format_weather_message (weather_data : json) : result string :=
  (city <- Py.getitem weather_data "name" ;;
   sys <- Py.getitem weather_data "sys" ;;
   country <- Py.getitem sys "country" ;;
   main1 <- Py.getitem weather_data "main" ;;
   temp <- Py.getitem main1 "temp" ;;
   main2 <- Py.getitem weather_data "main" ;;
   feels_like <- Py.getitem main2 "feels_like" ;;
   main3 <- Py.getitem weather_data "main" ;;
   humidity <- Py.getitem main3 "humidity" ;;
   main4 <- Py.getitem weather_data "main" ;;
   pressure <- Py.getitem main4 "pressure" ;;
   weather1 <- Py.getitem weather_data "weather" ;;
   first1 <- Py.getitem0 weather1 ;;
   raw_description <- Py.getitem first1 "description" ;;
   description <- Py.title raw_description ;;
   holder <- wind_holder weather_data ;;
   wind <- Py.get holder "wind" (JObj []) ;;
   wind_speed <- Py.get wind "speed" (JStr "N/A") ;;
   weather2 <- Py.getitem weather_data "weather" ;;
   first2 <- Py.getitem0 weather2 ;;
   weather_id <- Py.getitem first2 "id" ;;
   emoji <- get_weather_emoji weather_id ;;
   Ok (emoji ++ " Weather in " ++ Py.str city ++ ", " ++ Py.str country
         ++ nl ++ nl ++
       "🌡️ Temperature: " ++ Py.str temp ++ "°C" ++ nl ++
       "🤔 Feels like: " ++ Py.str feels_like ++ "°C" ++ nl ++
       "📝 Description: " ++ Py.str description ++ nl ++
       "💧 Humidity: " ++ Py.str humidity ++ "%" ++ nl ++
       "📊 Pressure: " ++ Py.str pressure ++ " hPa" ++ nl ++
       "💨 Wind Speed: " ++ Py.str wind_speed ++ " m/s"))%result.

(** [async def get_weather]. *)
Definition get_weather (city_name : string) : io unit :=
  (emit (ChatAction "typing") ;;
   try_except
     (weather_data <- get_weather_data city_name ;;
      if Py.is_None weather_data then
        emit (ReplyText
                ("❌ Sorry, I couldn't find weather information for '"
                 ++ city_name ++ "'." ++ nl ++
                 "Please check the city name and try again."))
      else
        weather_message <- lift (format_weather_message weather_data) ;;
        emit (ReplyText weather_message))
     (fun e =>
        emit (LogError ("Error getting weather for " ++ city_name) e) ;;
        emit (ReplyText
                ("❌ Sorry, there was an error getting the weather information. "
                 ++ "Please try again later."))))%io.

(** [async def weather_command]; [args] is [context.args]. *)
Definition weather_command (args : list string) : io unit :=
  match args with
  | [] =>
      emit (ReplyText
              ("Please provide a city name!" ++ nl ++
               "Example: /weather London"))
  | _ :: _ =>
      let city_name := join " " args in
      get_weather city_name
  end.

(** [async def handle_message]; [text] is [update.message.text]. *)
Definition handle_message (text : string) : io unit :=
  let city_name := strip text in
  if startswith city_name "/" then
    emit (ReplyText "Unknown command. Type /help for available commands.")
  else get_weather city_name.

End Bot.

(* ================================================================== *)
(** ** Vocabulary of the statements *)

(** The icons, by the names the comments of [get_weather_emoji] give them. *)
Module Icon.
Definition thunderstorm : string := "⛈️".
Definition drizzle : string := "🌦️".
Definition rain : string := "🌧️".
Definition snow : string := "❄️".
Definition atmosphere : string := "🌫️".
Definition clear_sky : string := "☀️".
Definition clouds : string := "☁️".

Definition all : list string :=
  [thunderstorm; drizzle; rain; snow; atmosphere; clear_sky; clouds].
End Icon.

(** The fixed reply texts of the external interface. *)
Module Reply.
Import PyStr.

Definition guidance : string :=
  "Please provide a city name!" ++ nl ++ "Example: /weather London".

Definition unknown_command : string :=
  "Unknown command. Type /help for available commands.".

Definition not_found (city : string) : string :=
  "❌ Sorry, I couldn't find weather information for '" ++ city ++ "'."
  ++ nl ++ "Please check the city name and try again.".

Definition generic_failure : string :=
  "❌ Sorry, there was an error getting the weather information. Please try again later.".
End Reply.

(** A position inside a JSON document. *)
Inductive step : Type :=
| Key (key : string)
| Index (i : nat).

Fixpoint json_path (v : json) (path : list step) : option json :=
  match path with
  | [] => Some v
  | Key key :: path' =>
      match v with
      | JObj items =>
          match Py.dict_lookup key items with
          | Some x => json_path x path'
          | None => None
          end
      | _ => None
      end
  | Index i :: path' =>
      match v with
      | JArr items =>
          match nth_error items i with
          | Some x => json_path x path'
          | None => None
          end
      | _ => None
      end
  end.

(** The eight fields the formatter needs: [name], [sys.country],
    [main.temp], [main.feels_like], [main.humidity], [main.pressure],
    [weather[0].description] and [weather[0].id]. *)
Definition required_paths : list (list step) :=
  [ [Key "name"];
    [Key "sys"; Key "country"];
    [Key "main"; Key "temp"];
    [Key "main"; Key "feels_like"];
    [Key "main"; Key "humidity"];
    [Key "main"; Key "pressure"];
    [Key "weather"; Index 0; Key "description"];
    [Key "weather"; Index 0; Key "id"] ].

Definition missing_required_field (body : json) : Prop :=
  exists path, In path required_paths /\ json_path body path = None.

(** The values of the required fields of a payload. *)
Record Found : Type := {
  f_city : json;
  f_country : json;
  f_temp : json;
  f_feels_like : json;
  f_humidity : json;
  f_pressure : json;
  f_description : string;
  f_condition : json
}.

Definition carries (payload : json) (f : Found) : Prop :=
  json_path payload [Key "name"] = Some (f_city f)
  /\ json_path payload [Key "sys"; Key "country"] = Some (f_country f)
  /\ json_path payload [Key "main"; Key "temp"] = Some (f_temp f)
  /\ json_path payload [Key "main"; Key "feels_like"] = Some (f_feels_like f)
  /\ json_path payload [Key "main"; Key "humidity"] = Some (f_humidity f)
  /\ json_path payload [Key "main"; Key "pressure"] = Some (f_pressure f)
  /\ json_path payload [Key "weather"; Index 0; Key "description"]
     = Some (JStr (f_description f))
  /\ json_path payload [Key "weather"; Index 0; Key "id"]
     = Some (f_condition f).

(** Where each file looks for the object holding ['wind']. *)
Definition wind_holder_path (file : source_file) : list step :=
  match file with
  | weather_bot => [Key "main"]
  | weather_bot_cloud => []
  end.

Definition wind_speed_path (file : source_file) : list step :=
  (wind_holder_path file ++ [Key "wind"; Key "speed"])%list.

(** The wind speed is absent where [file] reads it: the holder has no
    ['wind'] entry, or its ['wind'] object has no ['speed'] entry. *)
Definition wind_speed_absent (file : source_file) (payload : json) : Prop :=
  exists holder,
    json_path payload (wind_holder_path file) = Some (JObj holder)
    /\ (Py.dict_lookup "wind" holder = None
        \/ exists wind,
            Py.dict_lookup "wind" holder = Some (JObj wind)
            /\ Py.dict_lookup "speed" wind = None).

(** The expression of line 80 (81) on its own. *)
Definition wind_reading (file : source_file) (weather_data : json)
  : result json :=
  (holder <- wind_holder file weather_data ;;
   wind <- Py.get holder "wind" (JObj []) ;;
   Py.get wind "speed" (JStr "N/A"))%result.

(** The eight lines of a weather report, given the text of each slot. *)
Definition report_lines
  (icon city country temp feels_like description humidity pressure wind_speed
   : string) : list string :=
  [ icon ++ " Weather in " ++ city ++ ", " ++ country;
    "";
    "🌡️ Temperature: " ++ temp ++ "°C";
    "🤔 Feels like: " ++ feels_like ++ "°C";
    "📝 Description: " ++ description;
    "💧 Humidity: " ++ humidity ++ "%";
    "📊 Pressure: " ++ pressure ++ " hPa";
    "💨 Wind Speed: " ++ wind_speed ++ " m/s" ].

Definition report `{PyRuntime} (icon : string) (f : Found) (wind_speed : string)
  : string :=
  PyStr.join PyStr.nl
    (report_lines icon (Py.str (f_city f)) (Py.str (f_country f))
       (Py.str (f_temp f)) (Py.str (f_feels_like f))
       (str_title (f_description f))
       (Py.str (f_humidity f)) (Py.str (f_pressure f)) wind_speed).

(** How many times [needle] occurs in [text]. *)
Fixpoint occurrences (needle text : string) : nat :=
  match text with
  | EmptyString => O
  | String _ text' =>
      ((if String.prefix needle text then 1 else 0) + occurrences needle text')%nat
  end.

(** A handler run that sent exactly one reply, [text], and ended normally. *)
Definition replied_once (run : io unit) (text : string) : Prop :=
  replies (events run) = [text] /\ outcome run = Ok tt.

Section Summary.

Context {runtime : PyRuntime}.
Variable file : source_file.
Variable self : WeatherBot.
Variable upstream : string -> list (string * string) -> http_outcome.

Import PyStr.

(** What the provider's answer makes of one call of [get_weather_data]. *)
Definition fetched (city_name : string) : result json :=
  match upstream (weather_base_url self) (request_params self city_name) with
  | Responded status body =>
      if status =? 200 then body
      else if status =? 404 then Ok JNull
      else Raise (PlainException
                    ("API request failed with status " ++ int_str status))
  | Failed cause => Raise (ClientError cause)
  end.

(** The text [get_weather] is about to send, or the exception that
    reaches its [except] clause. *)
Definition answer (city_name : string) : result string :=
  (weather_data <- fetched city_name ;;
   if Py.is_None weather_data then Ok (Reply.not_found city_name)
   else format_weather_message file weather_data)%result.

End Summary.

(* ================================================================== *)
(** ** Fixtures for the examples *)

Module Example.

(** A runtime for evaluation.  [repr_whole_float] is Python's [repr] on
    integer-valued floats below 1e16, which is all the examples use; other
    floats and containers are rendered as placeholders. *)
Definition repr_whole_float (f : float) : string :=
  match Prim2SF f with
  | S754_zero s => if s then "-0.0" else "0.0"
  | S754_infinity s => if s then "-inf" else "inf"
  | S754_nan => "nan"
  | S754_finite s m e =>
      let whole :=
        if 0 <=? e then Some (Z.pos m * 2 ^ e)
        else if Z.pos m mod 2 ^ (- e) =? 0 then Some (Z.pos m / 2 ^ (- e))
        else None in
      match whole with
      | Some n => (if s then "-" else "") ++ PyStr.int_str n ++ ".0"
      | None => "<float>"
      end
  end.

#[export] Instance runtime : PyRuntime := {|
  float_repr := repr_whole_float;
  container_str := fun _ => "<container>";
  str_title := PyStr.title_ascii;
  str_title_ascii := fun s _ => eq_refl
|}.

Definition bot : WeatherBot := {|
  telegram_token := "TELEGRAM_BOT_TOKEN";
  weather_api_key := "WEATHER_API_KEY";
  weather_base_url := "http://api.openweathermap.org/data/2.5/weather"
|}.

(** A provider that gives the same answer to every request. *)
Definition always (answer : http_outcome)
  : string -> list (string * string) -> http_outcome :=
  fun _ _ => answer.

Definition london_fields : Found := {|
  f_city := JStr "London";
  f_country := JStr "GB";
  f_temp := JFloat 15;
  f_feels_like := JFloat 14;
  f_humidity := JInt 80;
  f_pressure := JInt 1012;
  f_description := "few clouds";
  f_condition := JInt 801
|}.

(** The payload of the end-to-end scenario: no wind object anywhere. *)
Definition london : json :=
  JObj [ ("name", JStr "London");
         ("sys", JObj [("country", JStr "GB")]);
         ("main", JObj [("temp", JFloat 15); ("feels_like", JFloat 14);
                        ("humidity", JInt 80); ("pressure", JInt 1012)]);
         ("weather", JArr [JObj [("id", JInt 801);
                                 ("description", JStr "few clouds")]]) ].

(** The same with the provider's top-level wind object. *)
Definition london_windy : json :=
  JObj [ ("name", JStr "London");
         ("sys", JObj [("country", JStr "GB")]);
         ("main", JObj [("temp", JFloat 15); ("feels_like", JFloat 14);
                        ("humidity", JInt 80); ("pressure", JInt 1012)]);
         ("weather", JArr [JObj [("id", JInt 801);
                                 ("description", JStr "few clouds")]]);
         ("wind", JObj [("speed", JInt 4)]) ].

(** The same with the wind object nested under [main]. *)
Definition london_nested_wind : json :=
  JObj [ ("name", JStr "London");
         ("sys", JObj [("country", JStr "GB")]);
         ("main", JObj [("temp", JFloat 15); ("feels_like", JFloat 14);
                        ("humidity", JInt 80); ("pressure", JInt 1012);
                        ("wind", JObj [("speed", JInt 4)])]);
         ("weather", JArr [JObj [("id", JInt 801);
                                 ("description", JStr "few clouds")]]) ].

(** A payload without its ['name']. *)
Definition nameless : json :=
  JObj [ ("sys", JObj [("country", JStr "GB")]);
         ("main", JObj [("temp", JFloat 15); ("feels_like", JFloat 14);
                        ("humidity", JInt 80); ("pressure", JInt 1012)]);
         ("weather", JArr [JObj [("id", JInt 801);
                                 ("description", JStr "few clouds")]]) ].

End Example.

(* ================================================================== *)
(** ** Start-up of [weather_bot_cloud.py] *)

Module Cloud.

(** [WeatherBot.__init__] of [weather_bot_cloud.py]. *)
Definition __init__ (telegram_token weather_api_key : string) : WeatherBot := {|
  telegram_token := telegram_token;
  weather_api_key := weather_api_key;
  weather_base_url := "http://api.openweathermap.org/data/2.5/weather"
|}.

(** How the main block ends: [exit(status)] after the lines it printed, or
    the call [bot.run()], which hands [bot] to the polling loop. *)
Inductive startup : Type :=
| Exit (printed : list string) (status : Z)
| Run (bot : WeatherBot).

(** [not value] for what [os.getenv] returns: [None] and the empty string
    are false. *)
Definition not_ (value : option string) : bool :=
  match value with
  | None => true
  | Some EmptyString => true
  | Some (String _ _) => false
  end.

(** The value of a variable [os.getenv] found. *)
Definition value_of (value : option string) : string :=
  match value with
  | Some s => s
  | None => EmptyString
  end.

(** The block under [if __name__ == '__main__']; [getenv] is [os.getenv]. *)
Definition main (getenv : string -> option string) : startup :=
  let TELEGRAM_BOT_TOKEN := getenv "TELEGRAM_BOT_TOKEN" in
  let WEATHER_API_KEY := getenv "WEATHER_API_KEY" in
  if not_ TELEGRAM_BOT_TOKEN then
    Exit ["❌ TELEGRAM_BOT_TOKEN environment variable not set!"] 1
  else if not_ WEATHER_API_KEY then
    Exit ["❌ WEATHER_API_KEY environment variable not set!"] 1
  else
    Run (__init__ (value_of TELEGRAM_BOT_TOKEN) (value_of WEATHER_API_KEY)).

End Cloud.

(* ================================================================== *)
(** ** More vocabulary *)

Definition is_log (ev : event) : bool :=
  match ev with
  | LogError _ _ => true
  | _ => false
  end.

(** The values Python compares with an [int]: [int], [float] and [bool]. *)
Definition is_number (v : json) : bool :=
  match v with
  | JInt _ | JFloat _ | JBool _ => true
  | _ => false
  end.

Definition is_object (v : json) : bool :=
  match v with
  | JObj _ => true
  | _ => false
  end.

Definition is_text (v : json) : bool :=
  match v with
  | JStr _ => true
  | _ => false
  end.

(** The seven fields read before the description is title-cased, and the
    description itself, of any type. *)
Definition carries_up_to_description (payload : json) (description : json)
  : Prop :=
  json_path payload [Key "name"] <> None
  /\ json_path payload [Key "sys"; Key "country"] <> None
  /\ json_path payload [Key "main"; Key "temp"] <> None
  /\ json_path payload [Key "main"; Key "feels_like"] <> None
  /\ json_path payload [Key "main"; Key "humidity"] <> None
  /\ json_path payload [Key "main"; Key "pressure"] <> None
  /\ json_path payload [Key "weather"; Index 0; Key "description"]
     = Some description.

(** An environment for the examples. *)
Definition example_env (name : string) : option string :=
  if String.eqb name "TELEGRAM_BOT_TOKEN" then Some "123:abc"
  else if String.eqb name "WEATHER_API_KEY" then Some "0123456789abcdef"
  else None.

(** Payloads for the examples: London with a given ['weather'] value and
    further top-level entries. *)
Module Sample.

Definition payload (weather : json) (more : list (string * json)) : json :=
  JObj ([ ("name", JStr "London");
          ("sys", JObj [("country", JStr "GB")]);
          ("main", JObj [("temp", JFloat 15); ("feels_like", JFloat 14);
                         ("humidity", JInt 80); ("pressure", JInt 1012)]);
          ("weather", weather) ] ++ more)%list.

Definition conditions (id description : json) : json :=
  JArr [JObj [("id", id); ("description", description)]].

Definition fields (id : json) : Found := {|
  f_city := JStr "London";
  f_country := JStr "GB";
  f_temp := JFloat 15;
  f_feels_like := JFloat 14;
  f_humidity := JInt 80;
  f_pressure := JInt 1012;
  f_description := "few clouds";
  f_condition := id
|}.

End Sample.

(** A text that begins, or ends, with a character [str.isspace] accepts. *)
Definition starts_with_space (s : string) : Prop :=
  exists w rest, In w PyStr.whitespace /\ s = w ++ rest.

Definition ends_with_space (s : string) : Prop :=
  exists w rest, In w PyStr.whitespace /\ s = rest ++ w.

Definition nonempty (p : string) : Prop := p <> "".

(* ================================================================== *)
(** ** Strings *)

Section Strings.

Import PyStr.

Lemma append_assoc (a b c : string) : (a ++ b) ++ c = a ++ (b ++ c).
Proof.
  induction a as [ | x a IH]; cbn; [ reflexivity | now rewrite IH ].
Qed.

Lemma append_nil_r (a : string) : a ++ "" = a.
Proof.
  induction a as [ | x a IH]; cbn; [ reflexivity | now rewrite IH ].
Qed.

Lemma length_append (a b : string) :
  String.length (a ++ b) = (String.length a + String.length b)%nat.
Proof.
  induction a as [ | x a IH]; cbn; [ reflexivity | now rewrite IH ].
Qed.

Lemma append_cancel_l (p a b : string) : p ++ a = p ++ b -> a = b.
Proof.
  induction p as [ | x p IH]; cbn; intros E; [ exact E | ].
  injection E as E. now apply IH.
Qed.

Lemma append_cancel_r (a b s : string) : a ++ s = b ++ s -> a = b.
Proof.
  revert b; induction a as [ | x a IH]; intros [ | y b] E; cbn in E.
  - reflexivity.
  - apply (f_equal String.length) in E. cbn in E.
    rewrite length_append in E. lia.
  - apply (f_equal String.length) in E. cbn in E.
    rewrite length_append in E. lia.
  - injection E as -> E. f_equal. now apply IH.
Qed.

(** The three kinds of byte [title_from] tells apart. *)
Lemma letter_cases (c : ascii) :
  (is_lower c = true /\ is_upper c = false
   /\ is_upper (to_upper c) = true /\ is_lower (to_upper c) = false
   /\ to_lower (to_upper c) = c /\ to_lower c = c)
  \/ (is_upper c = true /\ is_lower c = false
      /\ is_lower (to_lower c) = true /\ is_upper (to_lower c) = false
      /\ to_lower (to_lower c) = to_lower c)
  \/ (is_lower c = false /\ is_upper c = false /\ to_lower c = c).
Proof.
  destruct c as [[] [] [] [] [] [] [] []]; vm_compute; tauto.
Qed.

Lemma title_from_cased (s : string) :
  forall previous, title_cased_from previous (title_from previous s) = true.
Proof.
  induction s as [ | c s IH]; intros previous; cbn; [ reflexivity | ].
  destruct (letter_cases c)
    as [(Hl & Hu & Hu' & Hl' & _) | [(Hu & Hl & Hl' & Hu' & _) | (Hl & Hu & _)]];
    rewrite Hl; [ | rewrite Hu | rewrite Hu ];
    destruct previous; cbn; unfold is_letter;
    rewrite ?Hl, ?Hu, ?Hl', ?Hu'; cbn; apply IH.
Qed.

Lemma title_from_lower (s : string) :
  forall previous, lower (title_from previous s) = lower s.
Proof.
  induction s as [ | c s IH]; intros previous; cbn; [ reflexivity | ].
  destruct (letter_cases c)
    as [(Hl & Hu & _ & _ & E1 & E2) | [(Hu & Hl & _ & _ & E) | (Hl & Hu & E)]];
    rewrite Hl; [ | rewrite Hu | rewrite Hu ];
    destruct previous; cbn; rewrite ?E1, ?E2, ?E, ?IH; reflexivity.
Qed.

Lemma title_from_length (s : string) :
  forall previous, String.length (title_from previous s) = String.length s.
Proof.
  induction s as [ | c s IH]; intros previous; cbn; [ reflexivity | ].
  destruct (is_lower c); [ | destruct (is_upper c) ]; cbn; now rewrite IH.
Qed.

(** [str(n)] of an integer is never the sentinel ["N/A"]. *)
Lemma int_str_not_sentinel (n : Z) : int_str n <> "N/A".
Proof.
  unfold int_str.
  destruct (Z.to_int n) as [d | d]; destruct d; cbn; discriminate.
Qed.

End Strings.

(* ================================================================== *)
(** ** Icon selection *)

Section Emoji.

Lemma get_weather_emoji_int (code : Z) :
  get_weather_emoji (JInt code) =
  Ok (if code <? 300 then Icon.thunderstorm
      else if code <? 400 then Icon.drizzle
      else if code <? 600 then Icon.rain
      else if code <? 700 then Icon.snow
      else if code <? 800 then Icon.atmosphere
      else if code =? 800 then Icon.clear_sky
      else Icon.clouds).
Proof.
  unfold get_weather_emoji; cbn [Py.lt_int Py.eq_int rbind].
  repeat match goal with
         | |- context [?a <? ?b] => destruct (a <? b); try reflexivity
         | |- context [?a =? ?b] => destruct (a =? b); try reflexivity
         end.
Qed.

Lemma icons_distinct : NoDup Icon.all.
Proof.
  unfold Icon.all.
  repeat (constructor;
          [ cbn [In]; intros H;
            repeat (destruct H as [H | H]; [ discriminate H | ]); exact H
          | ]).
  constructor.
Qed.

End Emoji.

Ltac icon_cases code :=
  rewrite (get_weather_emoji_int code);
  destruct (Z.ltb_spec code 300); destruct (Z.ltb_spec code 400);
  destruct (Z.ltb_spec code 600); destruct (Z.ltb_spec code 700);
  destruct (Z.ltb_spec code 800); destruct (Z.eqb_spec code 800);
  try lia.

(** C1.  [get_weather_emoji] is total on integer condition codes and
    returns one of seven pairwise different icons; each icon is returned on
    exactly its documented range (thunderstorm below 300, drizzle from 300
    below 400, rain from 400 below 600, snow from 600 below 700, atmosphere
    from 700 below 800, clear sky at 800, clouds above 800), and the
    boundary codes 299, 300, 399, 400, 599, 600, 699, 700, 799, 800 and 801
    resolve accordingly. *)
Theorem get_weather_emoji_partition :
  (forall code : Z,
      (exists icon, get_weather_emoji (JInt code) = Ok icon /\ In icon Icon.all)
      /\ (get_weather_emoji (JInt code) = Ok Icon.thunderstorm <-> code < 300)
      /\ (get_weather_emoji (JInt code) = Ok Icon.drizzle <-> 300 <= code < 400)
      /\ (get_weather_emoji (JInt code) = Ok Icon.rain <-> 400 <= code < 600)
      /\ (get_weather_emoji (JInt code) = Ok Icon.snow <-> 600 <= code < 700)
      /\ (get_weather_emoji (JInt code) = Ok Icon.atmosphere
          <-> 700 <= code < 800)
      /\ (get_weather_emoji (JInt code) = Ok Icon.clear_sky <-> code = 800)
      /\ (get_weather_emoji (JInt code) = Ok Icon.clouds <-> 800 < code))
  /\ NoDup Icon.all
  /\ map (fun code => get_weather_emoji (JInt code))
         [299; 300; 399; 400; 599; 600; 699; 700; 799; 800; 801]
     = map Ok [Icon.thunderstorm; Icon.drizzle; Icon.drizzle; Icon.rain;
               Icon.rain; Icon.snow; Icon.snow; Icon.atmosphere;
               Icon.atmosphere; Icon.clear_sky; Icon.clouds].
Proof.
  split; [ | split; [ exact icons_distinct | reflexivity ] ].
  intros code.
  split.
  - rewrite (get_weather_emoji_int code).
    eexists; split; [ reflexivity | ].
    unfold Icon.all; cbn [In].
    repeat match goal with
           | |- context [if ?b then _ else _] => destruct b; [ tauto | ]
           end.
    tauto.
  - repeat apply conj; icon_cases code;
      intros Hyp; try discriminate Hyp; try lia; try reflexivity.
Qed.

(* ================================================================== *)
(** ** Reading a payload *)

Section Reading.

Lemma rbind_ok {A B : Type} (r : result A) (k : A -> result B) (b : B) :
  rbind r k = Ok b -> exists a, r = Ok a /\ k a = Ok b.
Proof.
  destruct r as [a | e]; cbn; intros E; [ eauto | discriminate E ].
Qed.

Lemma getitem_ok (v : json) (key : string) (x : json) :
  Py.getitem v key = Ok x <->
  exists items, v = JObj items /\ Py.dict_lookup key items = Some x.
Proof.
  split.
  - destruct v; cbn; try discriminate.
    destruct (Py.dict_lookup key items) eqn:E; [ | discriminate ].
    intros [= ->]. eauto.
  - intros (items & -> & E). cbn. now rewrite E.
Qed.

Lemma getitem_path (v : json) (key : string) (path : list step) (x : json) :
  json_path v (Key key :: path) = Some x <->
  exists y, Py.getitem v key = Ok y /\ json_path y path = Some x.
Proof.
  split.
  - cbn. destruct v; try discriminate.
    destruct (Py.dict_lookup key items) eqn:E; [ | discriminate ].
    intros P. exists j. cbn. rewrite E. auto.
  - intros (y & G & P). apply getitem_ok in G as (items & -> & E).
    cbn. now rewrite E.
Qed.

Lemma getitem0_path (v : json) (path : list step) (x : json) :
  json_path v (Index 0 :: path) = Some x ->
  exists y, Py.getitem0 v = Ok y /\ json_path y path = Some x.
Proof.
  cbn. destruct v; try discriminate.
  destruct items as [ | y items]; [ discriminate | ].
  cbn. eauto.
Qed.

(** Subscripting what [v[0]] gave with a key succeeds only when [v] is a
    list whose first element holds the key. *)
Lemma getitem0_getitem_ok (v y x : json) (key : string) :
  Py.getitem0 v = Ok y -> Py.getitem y key = Ok x ->
  json_path v [Index 0; Key key] = Some x.
Proof.
  intros G0 G. apply getitem_ok in G as (items & -> & E).
  destruct v; cbn in G0; try discriminate.
  - destruct (PyStr.first_char s); discriminate.
  - destruct items0 as [ | z items0]; [ discriminate | ].
    injection G0 as ->. cbn. now rewrite E.
Qed.

Lemma json_path_app (v : json) (p q : list step) :
  json_path v (p ++ q) =
  match json_path v p with
  | Some x => json_path x q
  | None => None
  end.
Proof.
  revert v; induction p as [ | [key | i] p IH]; intros v; cbn.
  - reflexivity.
  - destruct v; try reflexivity.
    destruct (Py.dict_lookup key items); [ apply IH | reflexivity ].
  - destruct v; try reflexivity.
    destruct (nth_error items i); [ apply IH | reflexivity ].
Qed.

End Reading.

(* ================================================================== *)
(** ** The formatter *)

Section Formatter.

Context {runtime : PyRuntime}.
Variable file : source_file.

Import PyStr.

(** The text the f-string builds is the eight report lines joined by
    line feeds. *)
Lemma fstring_lines
  (icon city country temp feels_like description humidity pressure wind
   : string) :
  icon ++ " Weather in " ++ city ++ ", " ++ country ++ nl ++ nl ++
  "🌡️ Temperature: " ++ temp ++ "°C" ++ nl ++
  "🤔 Feels like: " ++ feels_like ++ "°C" ++ nl ++
  "📝 Description: " ++ description ++ nl ++
  "💧 Humidity: " ++ humidity ++ "%" ++ nl ++
  "📊 Pressure: " ++ pressure ++ " hPa" ++ nl ++
  "💨 Wind Speed: " ++ wind ++ " m/s"
  = join nl (report_lines icon city country temp feels_like description
               humidity pressure wind).
Proof.
  unfold join, report_lines. cbn [String.concat].
  repeat rewrite append_assoc. reflexivity.
Qed.

(** Line 80 of [weather_bot.py], line 81 of [weather_bot_cloud.py]. *)
Lemma wind_reading_absent (payload : json) :
  wind_speed_absent file payload ->
  wind_reading file payload = Ok (JStr "N/A").
Proof.
  intros (holder & P & W). unfold wind_reading, wind_holder.
  assert (H : match file with
              | weather_bot => Py.getitem payload "main"
              | weather_bot_cloud => Ok payload
              end = Ok (JObj holder)).
  { destruct file; cbn in P.
    - destruct payload; try discriminate.
      cbn. destruct (Py.dict_lookup "main" items); [ | discriminate ].
      now injection P as ->.
    - now injection P as ->. }
  rewrite H. cbn.
  destruct W as [W | (wind & W & S)]; rewrite W; cbn; [ reflexivity | ].
  now rewrite S.
Qed.

Lemma wind_reading_present (payload speed : json) :
  json_path payload (wind_speed_path file) = Some speed ->
  wind_reading file payload = Ok speed.
Proof.
  unfold wind_speed_path. rewrite json_path_app.
  destruct (json_path payload (wind_holder_path file)) as [holder | ] eqn:P;
    [ | discriminate ].
  intros S. unfold wind_reading, wind_holder.
  assert (H : match file with
              | weather_bot => Py.getitem payload "main"
              | weather_bot_cloud => Ok payload
              end = Ok holder).
  { destruct file; cbn in P.
    - destruct payload; try discriminate.
      cbn. destruct (Py.dict_lookup "main" items); [ | discriminate ].
      now injection P as ->.
    - now injection P as ->. }
  rewrite H. cbn in S |- *.
  destruct holder; try discriminate. cbn.
  destruct (Py.dict_lookup "wind" items) as [wind | ]; [ | discriminate ].
  destruct wind; try discriminate. cbn.
  destruct (Py.dict_lookup "speed" items0); [ | discriminate ].
  now injection S as ->.
Qed.

(** The formatter on a payload that carries the required fields. *)
Lemma format_found (payload : json) (f : Found) (icon : string) (speed : json) :
  carries payload f ->
  get_weather_emoji (f_condition f) = Ok icon ->
  wind_reading file payload = Ok speed ->
  format_weather_message file payload = Ok (report icon f (Py.str speed)).
Proof.
  intros (Hname & Hcountry & Htemp & Hfeels & Hhum & Hpres & Hdesc & Hid)
         Hicon Hwind.
  apply getitem_path in Hname as (city & Gname & [= ->]).
  apply getitem_path in Hcountry as (sys & Gsys & Hcountry).
  apply getitem_path in Hcountry as (country & Gcountry & [= ->]).
  apply getitem_path in Htemp as (main & Gmain & Htemp).
  apply getitem_path in Htemp as (temp & Gtemp & [= ->]).
  apply getitem_path in Hfeels as (main' & Gmain' & Hfeels).
  rewrite Gmain in Gmain'. injection Gmain' as <-.
  apply getitem_path in Hfeels as (feels & Gfeels & [= ->]).
  apply getitem_path in Hhum as (main' & Gmain' & Hhum).
  rewrite Gmain in Gmain'. injection Gmain' as <-.
  apply getitem_path in Hhum as (hum & Ghum & [= ->]).
  apply getitem_path in Hpres as (main' & Gmain' & Hpres).
  rewrite Gmain in Gmain'. injection Gmain' as <-.
  apply getitem_path in Hpres as (pres & Gpres & [= ->]).
  apply getitem_path in Hdesc as (weather & Gweather & Hdesc).
  apply getitem0_path in Hdesc as (first & Gfirst & Hdesc).
  apply getitem_path in Hdesc as (desc & Gdesc & [= ->]).
  apply getitem_path in Hid as (weather' & Gweather' & Hid).
  rewrite Gweather in Gweather'. injection Gweather' as <-.
  apply getitem0_path in Hid as (first' & Gfirst' & Hid).
  rewrite Gfirst in Gfirst'. injection Gfirst' as <-.
  apply getitem_path in Hid as (cond & Gid & [= ->]).
  unfold wind_reading in Hwind.
  unfold format_weather_message.
  rewrite Gname, Gsys; cbn [rbind].
  rewrite Gcountry, Gmain; cbn [rbind].
  rewrite Gtemp, Gfeels, Ghum, Gpres, Gweather; cbn [rbind].
  rewrite Gfirst; cbn [rbind]. rewrite Gdesc; cbn [rbind Py.title].
  destruct (wind_holder file payload) as [holder | e]; [ | discriminate ].
  cbn [rbind] in Hwind |- *.
  destruct (Py.get holder "wind" (JObj [])) as [wind | e]; [ | discriminate ].
  cbn [rbind] in Hwind |- *.
  rewrite Hwind; cbn [rbind].
  rewrite Gid; cbn [rbind]. rewrite Hicon; cbn [rbind Py.str].
  unfold report. now rewrite fstring_lines.
Qed.

End Formatter.

Section FormatterFailures.

Context {runtime : PyRuntime}.
Variable file : source_file.

(** A message is produced only from a payload that has every required
    field. *)
Lemma format_ok_required (payload : json) (message : string) :
  format_weather_message file payload = Ok message ->
  forall path, In path required_paths -> json_path payload path <> None.
Proof.
  unfold format_weather_message. intros H.
  apply rbind_ok in H as (city & Gname & H).
  apply rbind_ok in H as (sys & Gsys & H).
  apply rbind_ok in H as (country & Gcountry & H).
  apply rbind_ok in H as (main1 & Gmain1 & H).
  apply rbind_ok in H as (temp & Gtemp & H).
  apply rbind_ok in H as (main2 & Gmain2 & H).
  apply rbind_ok in H as (feels & Gfeels & H).
  apply rbind_ok in H as (main3 & Gmain3 & H).
  apply rbind_ok in H as (hum & Ghum & H).
  apply rbind_ok in H as (main4 & Gmain4 & H).
  apply rbind_ok in H as (pres & Gpres & H).
  apply rbind_ok in H as (weather1 & Gweather1 & H).
  apply rbind_ok in H as (first1 & Gfirst1 & H).
  apply rbind_ok in H as (desc & Gdesc & H).
  apply rbind_ok in H as (titled & _ & H).
  apply rbind_ok in H as (holder & _ & H).
  apply rbind_ok in H as (wind & _ & H).
  apply rbind_ok in H as (speed & _ & H).
  apply rbind_ok in H as (weather2 & Gweather2 & H).
  apply rbind_ok in H as (first2 & Gfirst2 & H).
  apply rbind_ok in H as (cond & Gid & _).
  pose proof (getitem0_getitem_ok _ _ _ _ Gfirst1 Gdesc) as Pdesc.
  pose proof (getitem0_getitem_ok _ _ _ _ Gfirst2 Gid) as Pid.
  assert (P : forall v key path x y,
             Py.getitem v key = Ok y -> json_path y path = Some x ->
             json_path v (Key key :: path) <> None).
  { intros v key path x y G E.
    assert (S : json_path v (Key key :: path) = Some x)
      by (apply getitem_path; eauto).
    rewrite S. discriminate. }
  assert (P1 : forall v key y,
             Py.getitem v key = Ok y -> json_path y [] = Some y)
    by reflexivity.
  intros path In_path. unfold required_paths in In_path. cbn [In] in In_path.
  repeat (destruct In_path as [<- | In_path]; [ | ]);
    try contradiction.
  - eapply P; [ exact Gname | reflexivity ].
  - eapply P; [ exact Gsys | ]. apply getitem_path; eauto.
  - eapply P; [ exact Gmain1 | ]. apply getitem_path; eauto.
  - eapply P; [ exact Gmain2 | ]. apply getitem_path; eauto.
  - eapply P; [ exact Gmain3 | ]. apply getitem_path; eauto.
  - eapply P; [ exact Gmain4 | ]. apply getitem_path; eauto.
  - eapply P; [ exact Gweather1 | exact Pdesc ].
  - eapply P; [ exact Gweather2 | exact Pid ].
Qed.

Lemma format_missing_raises (payload : json) :
  missing_required_field payload ->
  exists e, format_weather_message file payload = Raise e.
Proof.
  intros (path & In_path & Missing).
  destruct (format_weather_message file payload) as [message | e] eqn:F.
  - exfalso. exact (format_ok_required _ _ F path In_path Missing).
  - eauto.
Qed.

End FormatterFailures.

(* ================================================================== *)
(** ** The fetcher and the handlers *)

Section Handlers.

Context {runtime : PyRuntime}.
Variable file : source_file.
Variable self : WeatherBot.
Variable upstream : string -> list (string * string) -> http_outcome.

Import PyStr.

Lemma replies_app (evs evs' : list event) :
  replies (evs ++ evs') = (replies evs ++ replies evs')%list.
Proof.
  induction evs as [ | [] evs IH]; cbn; rewrite ?IH; reflexivity.
Qed.

Lemma queried_cities_app (evs evs' : list event) :
  queried_cities (evs ++ evs')
  = (queried_cities evs ++ queried_cities evs')%list.
Proof.
  induction evs as [ | [] evs IH]; cbn; rewrite ?IH; try reflexivity.
  destruct (find _ params) as [[] | ]; cbn; now rewrite ?IH.
Qed.


Lemma get_weather_data_run (city_name : string) :
  get_weather_data self upstream city_name
  = (HttpGet (weather_base_url self) (request_params self city_name)
       :: match fetched self upstream city_name with
          | Ok _ => []
          | Raise e => [LogError "Error fetching weather data" e]
          end,
     fetched self upstream city_name).
Proof.
  unfold get_weather_data, fetched.
  destruct (upstream _ _) as [status body | cause]; cbn.
  - destruct (status =? 200); cbn.
    + destruct body; reflexivity.
    + destruct (status =? 404); reflexivity.
  - reflexivity.
Qed.


Lemma get_weather_run (city_name : string) :
  get_weather file self upstream city_name
  = ((ChatAction "typing" :: events (get_weather_data self upstream city_name))
       ++ match answer file self upstream city_name with
          | Ok text => [ReplyText text]
          | Raise e =>
              [LogError ("Error getting weather for " ++ city_name) e;
               ReplyText Reply.generic_failure]
          end,
     Ok tt)%list.
Proof.
  unfold get_weather, answer. rewrite get_weather_data_run.
  destruct (fetched self upstream city_name) as [weather_data | e]; cbn.
  - destruct (Py.is_None weather_data); cbn; [ reflexivity | ].
    destruct (format_weather_message file weather_data); reflexivity.
  - reflexivity.
Qed.

(** Every call of [get_weather] ends normally after exactly one reply. *)
Lemma get_weather_replies_once (city_name : string) :
  replied_once (get_weather file self upstream city_name)
    (match answer file self upstream city_name with
     | Ok text => text
     | Raise _ => Reply.generic_failure
     end).
Proof.
  unfold replied_once. rewrite get_weather_run, get_weather_data_run.
  unfold events, outcome; cbn [fst snd]. split; [ | reflexivity ].
  cbn [replies app]. rewrite replies_app.
  destruct (fetched self upstream city_name); destruct (answer file self upstream city_name); reflexivity.
Qed.

(** Every call of [get_weather] sends exactly one request, for its
    argument. *)
Lemma get_weather_queries (city_name : string) :
  queried_cities (events (get_weather file self upstream city_name))
  = [city_name].
Proof.
  rewrite get_weather_run, get_weather_data_run.
  unfold events; cbn [fst]. cbn [queried_cities app].
  rewrite queried_cities_app.
  unfold request_params. cbn [find fst String.eqb Ascii.eqb Bool.eqb].
  cbn.
  destruct (fetched self upstream city_name); destruct (answer file self upstream city_name); reflexivity.
Qed.

End Handlers.

(* ================================================================== *)
(** ** Fetch failures and the replies they lead to *)

(** C2.  When the provider answers a city query with status 404,
    [get_weather_data] returns [None] and [get_weather] sends exactly the
    not-found text with the queried city between the quotes, after the
    typing action and the one request. *)
Theorem not_found_reply {runtime : PyRuntime} (file : source_file)
  (self : WeatherBot)
  (upstream : string -> list (string * string) -> http_outcome)
  (city : string) (body : result json) :
  upstream (weather_base_url self) (request_params self city)
  = Responded 404 body ->
  outcome (get_weather_data self upstream city) = Ok JNull
  /\ events (get_weather file self upstream city)
     = [ ChatAction "typing";
         HttpGet (weather_base_url self) (request_params self city);
         ReplyText (Reply.not_found city) ]
  /\ outcome (get_weather file self upstream city) = Ok tt.
Proof.
  intros Answer.
  assert (F : fetched self upstream city = Ok JNull)
    by (unfold fetched; now rewrite Answer).
  rewrite get_weather_run, get_weather_data_run.
  unfold answer, events, outcome. rewrite F. cbn. auto.
Qed.

Lemma not_found_reply_witness :
  events (@get_weather Example.runtime weather_bot Example.bot
            (Example.always (Responded 404 (Ok JNull))) "Atlantis")
  = [ ChatAction "typing";
      HttpGet "http://api.openweathermap.org/data/2.5/weather"
        [("q", "Atlantis"); ("appid", "WEATHER_API_KEY"); ("units", "metric")];
      ReplyText (Reply.not_found "Atlantis") ].
Proof.
  exact (proj1 (proj2 (@not_found_reply Example.runtime weather_bot
                         Example.bot
                         (Example.always (Responded 404 (Ok JNull)))
                         "Atlantis" (Ok JNull) eq_refl))).
Defined.

(** C3.  When the provider answers with a status other than 200 and 404,
    or the request fails before any answer, [get_weather_data] ends with an
    exception (carrying the status for an unexpected status), and
    [get_weather] logs it and sends exactly the generic failure text, which
    does not depend on the city. *)
Theorem transport_failure_reply {runtime : PyRuntime} (file : source_file)
  (self : WeatherBot)
  (upstream : string -> list (string * string) -> http_outcome)
  (city : string) :
  (exists cause,
      upstream (weather_base_url self) (request_params self city)
      = Failed cause)
  \/ (exists status body,
         upstream (weather_base_url self) (request_params self city)
         = Responded status body
         /\ status <> 200 /\ status <> 404) ->
  exists e,
    outcome (get_weather_data self upstream city) = Raise e
    /\ (forall status body,
           upstream (weather_base_url self) (request_params self city)
           = Responded status body ->
           e = PlainException
                 ("API request failed with status " ++ PyStr.int_str status))
    /\ events (get_weather file self upstream city)
       = [ ChatAction "typing";
           HttpGet (weather_base_url self) (request_params self city);
           LogError "Error fetching weather data" e;
           LogError ("Error getting weather for " ++ city) e;
           ReplyText Reply.generic_failure ]
    /\ outcome (get_weather file self upstream city) = Ok tt.
Proof.
  intros [(cause & Answer) | (status & body & Answer & N200 & N404)].
  - exists (ClientError cause).
    assert (F : fetched self upstream city = Raise (ClientError cause))
      by (unfold fetched; now rewrite Answer).
    rewrite get_weather_run, get_weather_data_run.
    unfold answer, events, outcome. rewrite F. cbn.
    repeat split. intros status body E. rewrite Answer in E. discriminate E.
  - exists (PlainException
              ("API request failed with status " ++ PyStr.int_str status)).
    assert (F : fetched self upstream city
                = Raise (PlainException
                           ("API request failed with status "
                            ++ PyStr.int_str status))).
    { unfold fetched. rewrite Answer.
      destruct (Z.eqb_spec status 200); [ contradiction | ].
      destruct (Z.eqb_spec status 404); [ contradiction | reflexivity ]. }
    rewrite get_weather_run, get_weather_data_run.
    unfold answer, events, outcome. rewrite F. cbn.
    repeat split. intros status' body' E. rewrite Answer in E.
    now injection E as -> _.
Qed.

Lemma transport_failure_reply_witness :
  exists e,
    outcome (get_weather_data Example.bot
               (Example.always (Responded 500 (Ok JNull))) "London")
    = Raise e
    /\ replies (events (@get_weather Example.runtime weather_bot Example.bot
                          (Example.always (Responded 500 (Ok JNull)))
                          "London"))
       = [Reply.generic_failure].
Proof.
  assert (Unexpected :
            (exists cause,
                Example.always (Responded 500 (Ok JNull))
                  (weather_base_url Example.bot)
                  (request_params Example.bot "London")
                = Failed cause)
            \/ (exists status body,
                   Example.always (Responded 500 (Ok JNull))
                     (weather_base_url Example.bot)
                     (request_params Example.bot "London")
                   = Responded status body
                   /\ status <> 200 /\ status <> 404)).
  { right. exists 500, (Ok JNull). repeat split; discriminate. }
  destruct (@transport_failure_reply Example.runtime weather_bot Example.bot
              (Example.always (Responded 500 (Ok JNull))) "London" Unexpected)
    as (e & Raised & _ & Events & _).
  exists e. split; [ exact Raised | ]. now rewrite Events.
Defined.

(** C4, as the source has it.  [get_weather_data] returns the parsed body
    on status 200 and [None] on status 404; on any other status and on a
    failed request it logs the exception and raises it again to its caller.
    The caller [get_weather] catches every exception: whatever the
    provider does, it ends normally after exactly one reply. *)
Theorem get_weather_data_outcomes {runtime : PyRuntime} (file : source_file)
  (self : WeatherBot)
  (upstream : string -> list (string * string) -> http_outcome)
  (city : string) :
  (forall body,
      upstream (weather_base_url self) (request_params self city)
      = Responded 200 body ->
      outcome (get_weather_data self upstream city) = body)
  /\ (forall body,
         upstream (weather_base_url self) (request_params self city)
         = Responded 404 body ->
         outcome (get_weather_data self upstream city) = Ok JNull)
  /\ (forall status body,
         upstream (weather_base_url self) (request_params self city)
         = Responded status body ->
         status <> 200 -> status <> 404 ->
         outcome (get_weather_data self upstream city)
         = Raise (PlainException
                    ("API request failed with status "
                     ++ PyStr.int_str status)))
  /\ (forall cause,
         upstream (weather_base_url self) (request_params self city)
         = Failed cause ->
         outcome (get_weather_data self upstream city)
         = Raise (ClientError cause))
  /\ (forall e,
         outcome (get_weather_data self upstream city) = Raise e ->
         events (get_weather_data self upstream city)
         = [ HttpGet (weather_base_url self) (request_params self city);
             LogError "Error fetching weather data" e ])
  /\ (exists text,
         replied_once (get_weather file self upstream city) text).
Proof.
  rewrite get_weather_data_run. unfold outcome, events; cbn [fst snd].
  repeat apply conj.
  - intros body Answer. unfold fetched. now rewrite Answer.
  - intros body Answer. unfold fetched. now rewrite Answer.
  - intros status body Answer N200 N404. unfold fetched. rewrite Answer.
    destruct (Z.eqb_spec status 200); [ contradiction | ].
    destruct (Z.eqb_spec status 404); [ contradiction | reflexivity ].
  - intros cause Answer. unfold fetched. now rewrite Answer.
  - intros e Raised. now rewrite Raised.
  - eexists. apply get_weather_replies_once.
Qed.

(** C4, counterexample.  On status 500 the call does not return a value:
    it ends with the exception [Exception("API request failed with status
    500")], which its caller has to catch. *)
Lemma get_weather_data_raises_on_500 :
  outcome (get_weather_data Example.bot
             (Example.always (Responded 500 (Ok JNull))) "London")
  = Raise (PlainException "API request failed with status 500")
  /\ ~ (exists value,
           outcome (get_weather_data Example.bot
                      (Example.always (Responded 500 (Ok JNull))) "London")
           = Ok value).
Proof.
  split; [ reflexivity | ].
  intros (value & Returned). discriminate Returned.
Qed.

(* ================================================================== *)
(** ** The handlers *)

(** C8.  A [/weather] command without argument tokens is answered with
    exactly the guidance text, and no request is sent to the provider. *)
Theorem weather_command_without_city {runtime : PyRuntime}
  (file : source_file) (self : WeatherBot)
  (upstream : string -> list (string * string) -> http_outcome) :
  events (weather_command file self upstream []) = [ReplyText Reply.guidance]
  /\ outcome (weather_command file self upstream []) = Ok tt
  /\ filter is_request (events (weather_command file self upstream [])) = []
  /\ queried_cities (events (weather_command file self upstream [])) = [].
Proof.
  repeat split.
Qed.

(** C9, at the failing input.  A text message of three spaces is stripped
    to the empty string, which does not start with ['/'], so
    [handle_message] calls [get_weather("")] and the request goes out with
    an empty [q]; the same holds for every text that [strip] empties. *)
Theorem handle_message_blank_text {runtime : PyRuntime}
  (file : source_file) (self : WeatherBot)
  (upstream : string -> list (string * string) -> http_outcome) :
  PyStr.strip "   " = ""
  /\ handle_message file self upstream "   "
     = get_weather file self upstream ""
  /\ queried_cities (events (handle_message file self upstream "   ")) = [""]
  /\ In (HttpGet (weather_base_url self)
           [("q", ""); ("appid", weather_api_key self); ("units", "metric")])
        (events (handle_message file self upstream "   "))
  /\ (forall text,
         PyStr.strip text = "" ->
         queried_cities (events (handle_message file self upstream text))
         = [""]).
Proof.
  assert (E : handle_message file self upstream "   "
              = get_weather file self upstream "") by reflexivity.
  repeat apply conj.
  - reflexivity.
  - exact E.
  - rewrite E. apply get_weather_queries.
  - rewrite E, get_weather_run, get_weather_data_run.
    unfold events; cbn [fst]. right. left. reflexivity.
  - intros text Blank. unfold handle_message. rewrite Blank.
    cbn [PyStr.startswith String.prefix]. apply get_weather_queries.
Qed.

(* ================================================================== *)
(** ** The weather report *)

(** C5.  On a payload that carries the required fields and has no wind
    speed where the file reads it, [format_weather_message] returns a
    message (it does not raise) whose eighth and last line is
    ["💨 Wind Speed: N/A m/s"]. *)
Theorem missing_wind_speed_reads_sentinel {runtime : PyRuntime}
  (file : source_file) (payload : json) (f : Found) (icon : string) :
  carries payload f ->
  get_weather_emoji (f_condition f) = Ok icon ->
  wind_speed_absent file payload ->
  format_weather_message file payload = Ok (report icon f "N/A")
  /\ exists lines,
      length lines = 7%nat
      /\ report icon f "N/A"
         = PyStr.join PyStr.nl (lines ++ ["💨 Wind Speed: N/A m/s"]).
Proof.
  intros Fields Icon_ok Absent. split.
  - apply (format_found file payload f icon (JStr "N/A") Fields Icon_ok).
    now apply wind_reading_absent.
  - unfold report, report_lines.
    eexists [_; _; _; _; _; _; _]. split; reflexivity.
Qed.

Lemma missing_wind_speed_reads_sentinel_witness :
  @format_weather_message Example.runtime weather_bot Example.london
  = Ok (@report Example.runtime Icon.clouds Example.london_fields "N/A").
Proof.
  refine (proj1 (@missing_wind_speed_reads_sentinel Example.runtime weather_bot
                   Example.london Example.london_fields Icon.clouds _ _ _)).
  - repeat split.
  - reflexivity.
  - eexists. split; [ reflexivity | left; reflexivity ].
Defined.

(** C6.  The two files read the wind speed from different places:
    [weather_bot_cloud.py] from [wind.speed], [weather_bot.py] from
    [main.wind.speed].  So on a payload with a top-level wind speed and none
    under [main], the cloud file prints the speed and the other prints
    ["N/A"]; the two messages differ as soon as the speed is not itself
    printed as ["N/A"], which no integer is, and such a payload exists.
    Conversely, on a payload with a wind speed under [main] and none at the
    top level, [weather_bot.py] prints the speed and the cloud file prints
    ["N/A"]. *)
Theorem wind_speed_location_differs :
  (exists payload,
      forall runtime : PyRuntime,
        @format_weather_message runtime weather_bot payload
        <> @format_weather_message runtime weather_bot_cloud payload)
  /\ (forall (runtime : PyRuntime) (payload : json) (f : Found)
        (icon : string) (speed : json),
         carries payload f ->
         get_weather_emoji (f_condition f) = Ok icon ->
         json_path payload [Key "wind"; Key "speed"] = Some speed ->
         wind_speed_absent weather_bot payload ->
         format_weather_message weather_bot payload
         = Ok (report icon f "N/A")
         /\ format_weather_message weather_bot_cloud payload
            = Ok (report icon f (Py.str speed))
         /\ (Py.str speed <> "N/A" ->
             format_weather_message weather_bot payload
             <> format_weather_message weather_bot_cloud payload)
         /\ (forall n, speed = JInt n ->
             format_weather_message weather_bot payload
             <> format_weather_message weather_bot_cloud payload))
  /\ (forall (runtime : PyRuntime) (payload : json) (f : Found)
        (icon : string) (speed : json),
         carries payload f ->
         get_weather_emoji (f_condition f) = Ok icon ->
         json_path payload [Key "main"; Key "wind"; Key "speed"]
         = Some speed ->
         wind_speed_absent weather_bot_cloud payload ->
         format_weather_message weather_bot payload
         = Ok (report icon f (Py.str speed))
         /\ format_weather_message weather_bot_cloud payload
            = Ok (report icon f "N/A")
         /\ (Py.str speed <> "N/A" ->
             format_weather_message weather_bot payload
             <> format_weather_message weather_bot_cloud payload)
         /\ (forall n, speed = JInt n ->
             format_weather_message weather_bot payload
             <> format_weather_message weather_bot_cloud payload)).
Proof.
  assert (Reports :
            forall (runtime : PyRuntime) (f : Found) (icon a b : string),
              Ok (report icon f a) = Ok (report icon f b) -> a = b).
  { intros runtime f icon a b Same.
    injection Same as Same. unfold report, report_lines, PyStr.join in Same.
    cbn [String.concat] in Same.
    repeat (apply append_cancel_l in Same).
    now apply append_cancel_r in Same. }
  assert (General :
            forall (runtime : PyRuntime) (payload : json) (f : Found)
              (icon : string) (speed : json),
              carries payload f ->
              get_weather_emoji (f_condition f) = Ok icon ->
              json_path payload [Key "wind"; Key "speed"] = Some speed ->
              wind_speed_absent weather_bot payload ->
              format_weather_message weather_bot payload
              = Ok (report icon f "N/A")
              /\ format_weather_message weather_bot_cloud payload
                 = Ok (report icon f (Py.str speed))
              /\ (Py.str speed <> "N/A" ->
                  format_weather_message weather_bot payload
                  <> format_weather_message weather_bot_cloud payload)).
  { intros runtime payload f icon speed Fields Icon_ok Top Absent.
    assert (Local : format_weather_message weather_bot payload
                    = Ok (report icon f "N/A")).
    { apply (format_found weather_bot payload f icon (JStr "N/A")
               Fields Icon_ok).
      now apply wind_reading_absent. }
    assert (Cloud : format_weather_message weather_bot_cloud payload
                    = Ok (report icon f (Py.str speed))).
    { apply (format_found weather_bot_cloud payload f icon speed
               Fields Icon_ok).
      now apply wind_reading_present. }
    repeat apply conj; [ exact Local | exact Cloud | ].
    intros Differs Same. rewrite Local, Cloud in Same.
    apply Reports in Same. congruence. }
  assert (Converse :
            forall (runtime : PyRuntime) (payload : json) (f : Found)
              (icon : string) (speed : json),
              carries payload f ->
              get_weather_emoji (f_condition f) = Ok icon ->
              json_path payload [Key "main"; Key "wind"; Key "speed"]
              = Some speed ->
              wind_speed_absent weather_bot_cloud payload ->
              format_weather_message weather_bot payload
              = Ok (report icon f (Py.str speed))
              /\ format_weather_message weather_bot_cloud payload
                 = Ok (report icon f "N/A")
              /\ (Py.str speed <> "N/A" ->
                  format_weather_message weather_bot payload
                  <> format_weather_message weather_bot_cloud payload)).
  { intros runtime payload f icon speed Fields Icon_ok Nested Absent.
    assert (Local : format_weather_message weather_bot payload
                    = Ok (report icon f (Py.str speed))).
    { apply (format_found weather_bot payload f icon speed Fields Icon_ok).
      apply wind_reading_present. exact Nested. }
    assert (Cloud : format_weather_message weather_bot_cloud payload
                    = Ok (report icon f "N/A")).
    { apply (format_found weather_bot_cloud payload f icon (JStr "N/A")
               Fields Icon_ok).
      now apply wind_reading_absent. }
    repeat apply conj; [ exact Local | exact Cloud | ].
    intros Differs Same. rewrite Local, Cloud in Same.
    apply Reports in Same. congruence. }
  repeat apply conj.
  - exists Example.london_windy. intros runtime.
    refine (proj2 (proj2 (General runtime Example.london_windy
                            Example.london_fields Icon.clouds (JInt 4)
                            _ _ _ _)) _).
    + repeat split.
    + reflexivity.
    + reflexivity.
    + eexists. split; [ reflexivity | left; reflexivity ].
    + cbn. discriminate.
  - intros runtime payload f icon speed Fields Icon_ok Top Absent.
    destruct (General runtime payload f icon speed Fields Icon_ok Top Absent)
      as (Local & Cloud & Differs).
    repeat apply conj; [ exact Local | exact Cloud | exact Differs | ].
    intros n ->. apply Differs. cbn. apply int_str_not_sentinel.
  - intros runtime payload f icon speed Fields Icon_ok Nested Absent.
    destruct (Converse runtime payload f icon speed Fields Icon_ok Nested
                Absent) as (Local & Cloud & Differs).
    repeat apply conj; [ exact Local | exact Cloud | exact Differs | ].
    intros n ->. apply Differs. cbn. apply int_str_not_sentinel.
Qed.

Lemma wind_speed_location_differs_witness :
  (@format_weather_message Example.runtime weather_bot Example.london_windy
   = Ok (@report Example.runtime Icon.clouds Example.london_fields "N/A")
   /\ @format_weather_message Example.runtime weather_bot_cloud
        Example.london_windy
      = Ok (@report Example.runtime Icon.clouds Example.london_fields "4"))
  /\ (@format_weather_message Example.runtime weather_bot
        Example.london_nested_wind
      = Ok (@report Example.runtime Icon.clouds Example.london_fields "4")
      /\ @format_weather_message Example.runtime weather_bot_cloud
           Example.london_nested_wind
         = Ok (@report Example.runtime Icon.clouds Example.london_fields
                 "N/A")).
Proof.
  assert (Fields : carries Example.london_windy Example.london_fields)
    by (repeat split).
  assert (Absent : wind_speed_absent weather_bot Example.london_windy)
    by (eexists; split; [ reflexivity | left; reflexivity ]).
  assert (Fields' : carries Example.london_nested_wind Example.london_fields)
    by (repeat split).
  assert (Absent' : wind_speed_absent weather_bot_cloud
                      Example.london_nested_wind)
    by (eexists; split; [ reflexivity | left; reflexivity ]).
  destruct (proj1 (proj2 wind_speed_location_differs) Example.runtime
              Example.london_windy Example.london_fields Icon.clouds (JInt 4)
              Fields eq_refl eq_refl Absent)
    as (Local & Cloud & _).
  destruct (proj2 (proj2 wind_speed_location_differs) Example.runtime
              Example.london_nested_wind Example.london_fields Icon.clouds
              (JInt 4) Fields' eq_refl eq_refl Absent')
    as (Local' & Cloud' & _).
  repeat split; assumption.
Defined.

(** C7, at the failing input.  On a payload of the provider's schema, with
    the wind object at the top level, [weather_bot.py] looks for it under
    [main], finds none and prints ["N/A"]: the wind speed of the payload
    occurs nowhere in its message, while every other value is in its slot.
    [weather_bot_cloud.py] prints the speed of the same payload. *)
Theorem weather_bot_omits_top_level_wind_speed :
  @format_weather_message Example.runtime weather_bot Example.london_windy
  = Ok (PyStr.join PyStr.nl
          [ "☁️ Weather in London, GB";
            "";
            "🌡️ Temperature: 15.0°C";
            "🤔 Feels like: 14.0°C";
            "📝 Description: Few Clouds";
            "💧 Humidity: 80%";
            "📊 Pressure: 1012 hPa";
            "💨 Wind Speed: N/A m/s" ])
  /\ match @format_weather_message Example.runtime weather_bot
             Example.london_windy with
     | Ok message => Some (occurrences "4 m/s" message)
     | Raise _ => None
     end = Some 0%nat
  /\ match @format_weather_message Example.runtime weather_bot_cloud
             Example.london_windy with
     | Ok message => Some (occurrences "4 m/s" message)
     | Raise _ => None
     end = Some 1%nat
  /\ (forall (runtime : PyRuntime) (payload : json) (f : Found)
        (icon : string) (speed : json),
         carries payload f ->
         get_weather_emoji (f_condition f) = Ok icon ->
         json_path payload [Key "wind"; Key "speed"] = Some speed ->
         wind_speed_absent weather_bot payload ->
         format_weather_message weather_bot payload
         = Ok (PyStr.join PyStr.nl
                 [ icon ++ " Weather in " ++ Py.str (f_city f) ++ ", "
                     ++ Py.str (f_country f);
                   "";
                   "🌡️ Temperature: " ++ Py.str (f_temp f) ++ "°C";
                   "🤔 Feels like: " ++ Py.str (f_feels_like f) ++ "°C";
                   "📝 Description: " ++ str_title (f_description f);
                   "💧 Humidity: " ++ Py.str (f_humidity f) ++ "%";
                   "📊 Pressure: " ++ Py.str (f_pressure f) ++ " hPa";
                   "💨 Wind Speed: N/A m/s" ])).
Proof.
  repeat apply conj; try reflexivity.
  intros runtime payload f icon speed Fields Icon_ok Top Absent.
  apply (format_found weather_bot payload f icon (JStr "N/A") Fields Icon_ok).
  now apply wind_reading_absent.
Qed.

(** X19.  For either file, on a payload that carries the required fields
    and a wind speed where that file reads it ([main.wind.speed] for
    [weather_bot.py], [wind.speed] for [weather_bot_cloud.py]), the message
    is eight lines: the header with the icon, the city and the country, an
    empty line, then temperature and feels-like in [°C], the description,
    humidity in [%], pressure in [hPa] and wind speed in [m/s], each value
    printed in its one slot.  The description is printed as [str.title]
    returns it: for ASCII text, with the first letter of every word a
    capital, the other letters small, and no other change. *)
Theorem report_layout {runtime : PyRuntime} (file : source_file)
  (payload : json) (f : Found) (icon : string) (speed : json) :
  carries payload f ->
  get_weather_emoji (f_condition f) = Ok icon ->
  json_path payload (wind_speed_path file) = Some speed ->
  format_weather_message file payload
  = Ok (PyStr.join PyStr.nl
          [ icon ++ " Weather in " ++ Py.str (f_city f) ++ ", "
              ++ Py.str (f_country f);
            "";
            "🌡️ Temperature: " ++ Py.str (f_temp f) ++ "°C";
            "🤔 Feels like: " ++ Py.str (f_feels_like f) ++ "°C";
            "📝 Description: " ++ str_title (f_description f);
            "💧 Humidity: " ++ Py.str (f_humidity f) ++ "%";
            "📊 Pressure: " ++ Py.str (f_pressure f) ++ " hPa";
            "💨 Wind Speed: " ++ Py.str speed ++ " m/s" ])
  /\ (PyStr.is_ascii (f_description f) = true ->
      PyStr.title_cased (str_title (f_description f)) = true
      /\ PyStr.lower (str_title (f_description f))
         = PyStr.lower (f_description f)
      /\ String.length (str_title (f_description f))
         = String.length (f_description f)).
Proof.
  intros Fields Icon_ok Wind. split.
  - apply (format_found file payload f icon speed Fields Icon_ok).
    now apply wind_reading_present.
  - intros Ascii. rewrite (str_title_ascii _ Ascii). unfold PyStr.title_ascii.
    repeat apply conj.
    + apply title_from_cased.
    + apply title_from_lower.
    + apply title_from_length.
Qed.

Lemma report_layout_witness :
  @format_weather_message Example.runtime weather_bot_cloud
    Example.london_windy
  = Ok (PyStr.join PyStr.nl
          [ "☁️ Weather in London, GB";
            "";
            "🌡️ Temperature: 15.0°C";
            "🤔 Feels like: 14.0°C";
            "📝 Description: Few Clouds";
            "💧 Humidity: 80%";
            "📊 Pressure: 1012 hPa";
            "💨 Wind Speed: 4 m/s" ]).
Proof.
  assert (Fields : carries Example.london_windy Example.london_fields)
    by (repeat split).
  exact (proj1 (@report_layout Example.runtime weather_bot_cloud
                  Example.london_windy Example.london_fields Icon.clouds
                  (JInt 4) Fields eq_refl eq_refl)).
Defined.

(** The same payload with the wind object under [main], read by
    [weather_bot.py]; every printed value occurs once in the message. *)
Example nested_wind_values_once :
  @format_weather_message Example.runtime weather_bot
    Example.london_nested_wind
  = @format_weather_message Example.runtime weather_bot_cloud
      Example.london_windy
  /\ match @format_weather_message Example.runtime weather_bot
             Example.london_nested_wind with
     | Ok message =>
         map (fun value => occurrences value message)
           ["London"; "GB"; "15.0°C"; "14.0°C"; "Few Clouds"; "80%";
            "1012 hPa"; "4 m/s"]
     | Raise _ => []
     end
     = [1; 1; 1; 1; 1; 1; 1; 1]%nat.
Proof.
  split; reflexivity.
Qed.

(** The end-to-end scenario: the plain text ["London"] against a provider
    that answers 200 with the payload without wind. *)
Example london_end_to_end :
  @handle_message Example.runtime weather_bot Example.bot
    (Example.always (Responded 200 (Ok Example.london))) "London"
  = ([ ChatAction "typing";
       HttpGet "http://api.openweathermap.org/data/2.5/weather"
         [("q", "London"); ("appid", "WEATHER_API_KEY"); ("units", "metric")];
       ReplyText
         (PyStr.join PyStr.nl
            [ "☁️ Weather in London, GB";
              "";
              "🌡️ Temperature: 15.0°C";
              "🤔 Feels like: 14.0°C";
              "📝 Description: Few Clouds";
              "💧 Humidity: 80%";
              "📊 Pressure: 1012 hPa";
              "💨 Wind Speed: N/A m/s" ]) ],
      Ok tt).
Proof.
  reflexivity.
Qed.

(* ================================================================== *)
(** ** Payloads that lack a required field *)

(** C10, as the source has it.  When the provider answers 200 with a body
    that lacks a required field, [get_weather] ends normally after exactly
    one reply, a fixed text: the generic failure text when the body is not
    [null] (the formatter's exception is logged, not shown), and the
    not-found text for the city when the body is [null]. *)
Theorem missing_field_fails_closed {runtime : PyRuntime}
  (file : source_file) (self : WeatherBot)
  (upstream : string -> list (string * string) -> http_outcome)
  (city : string) (body : json) :
  upstream (weather_base_url self) (request_params self city)
  = Responded 200 (Ok body) ->
  missing_required_field body ->
  (body = JNull
   /\ events (get_weather file self upstream city)
      = [ ChatAction "typing";
          HttpGet (weather_base_url self) (request_params self city);
          ReplyText (Reply.not_found city) ]
   /\ outcome (get_weather file self upstream city) = Ok tt)
  \/ (body <> JNull
      /\ exists e,
          format_weather_message file body = Raise e
          /\ events (get_weather file self upstream city)
             = [ ChatAction "typing";
                 HttpGet (weather_base_url self) (request_params self city);
                 LogError ("Error getting weather for " ++ city) e;
                 ReplyText Reply.generic_failure ]
          /\ outcome (get_weather file self upstream city) = Ok tt).
Proof.
  intros Answer Missing.
  assert (F : fetched self upstream city = Ok body)
    by (unfold fetched; now rewrite Answer).
  rewrite get_weather_run, get_weather_data_run.
  unfold answer, events, outcome. rewrite F. cbn [fst snd rbind app].
  destruct body; cbn [Py.is_None];
    try (right; split; [ discriminate | ];
         destruct (format_missing_raises file _ Missing) as (e & Raised);
         exists e; rewrite Raised; repeat split).
  left. repeat split.
Qed.

Lemma missing_field_fails_closed_witness :
  replies (events (@get_weather Example.runtime weather_bot Example.bot
                     (Example.always (Responded 200 (Ok Example.nameless)))
                     "London"))
  = [Reply.generic_failure].
Proof.
  assert (Missing : missing_required_field Example.nameless)
    by (exists [Key "name"]; split; [ left | ]; reflexivity).
  destruct (@missing_field_fails_closed Example.runtime weather_bot
              Example.bot
              (Example.always (Responded 200 (Ok Example.nameless)))
              "London" Example.nameless eq_refl Missing)
    as [(Null & _) | (_ & e & _ & Events & _)].
  - discriminate Null.
  - now rewrite Events.
Defined.

(** C10, counterexample.  The body [null] lacks every required field, and
    the reply to it is the not-found text, not the generic failure text. *)
Lemma null_body_replies_not_found :
  missing_required_field JNull
  /\ replies (events (@get_weather Example.runtime weather_bot Example.bot
                        (Example.always (Responded 200 (Ok JNull)))
                        "London"))
     = [Reply.not_found "London"]
  /\ ~ replied_once (@get_weather Example.runtime weather_bot Example.bot
                       (Example.always (Responded 200 (Ok JNull))) "London")
         Reply.generic_failure.
Proof.
  repeat apply conj.
  - exists [Key "name"]. split; [ left | ]; reflexivity.
  - reflexivity.
  - intros (Replies & _). discriminate Replies.
Qed.

(* ================================================================== *)
(** ** Icon selection on any value *)

Section EmojiAnyValue.

Lemma get_weather_emoji_number (v : json) :
  is_number v = true ->
  exists icon, get_weather_emoji v = Ok icon /\ In icon Icon.all.
Proof.
  intros Number. unfold get_weather_emoji.
  destruct v; try discriminate Number; cbn [Py.lt_int Py.eq_int rbind];
    unfold Icon.all; cbn [In];
    repeat match goal with
           | |- context [if ?b then _ else _] =>
               destruct b; [ eexists; split; [ reflexivity | tauto ] | ]
           end;
    eexists; split; try reflexivity; tauto.
Qed.

Lemma get_weather_emoji_not_number (v : json) :
  is_number v = false -> get_weather_emoji v = Raise TypeError.
Proof.
  destruct v; try discriminate; reflexivity.
Qed.

Lemma get_weather_emoji_ok (v : json) (icon : string) :
  get_weather_emoji v = Ok icon -> is_number v = true /\ In icon Icon.all.
Proof.
  intros Returned. destruct (is_number v) eqn:Number.
  - split; [ reflexivity | ].
    destruct (get_weather_emoji_number v Number) as (icon' & E & Member).
    rewrite Returned in E. now injection E as ->.
  - rewrite (get_weather_emoji_not_number v Number) in Returned.
    discriminate Returned.
Qed.

End EmojiAnyValue.

(** X1.  [get_weather_emoji] returns one of the seven icons on every
    number ([int], [float], [bool]) and raises [TypeError] on every other
    value ([str], [None], [list], [dict]); a [bool] counts as 0 or 1 and
    gets the thunderstorm icon. *)
Theorem get_weather_emoji_any_value (v : json) :
  (get_weather_emoji v = Raise TypeError <-> is_number v = false)
  /\ ((exists icon, get_weather_emoji v = Ok icon /\ In icon Icon.all)
      <-> is_number v = true)
  /\ (forall b, get_weather_emoji (JBool b) = Ok Icon.thunderstorm).
Proof.
  repeat apply conj.
  - intros Raised. destruct (is_number v) eqn:Number; [ | reflexivity ].
    destruct (get_weather_emoji_number v Number) as (icon & E & _).
    rewrite Raised in E. discriminate E.
  - apply get_weather_emoji_not_number.
  - intros (icon & Returned & _).
    now apply get_weather_emoji_ok in Returned.
  - apply get_weather_emoji_number.
  - intros []; reflexivity.
Qed.

(* ================================================================== *)
(** ** What one lookup does, in order *)

(** X2.  Every call of [get_weather] emits, in this order: the typing
    action; one request to the configured URL with the city as given, the
    API key and [units=metric]; at most two log records; and one reply,
    which is the last event. *)
Theorem get_weather_event_order {runtime : PyRuntime} (file : source_file)
  (self : WeatherBot)
  (upstream : string -> list (string * string) -> http_outcome)
  (city : string) :
  exists logs text,
    events (get_weather file self upstream city)
    = (ChatAction "typing"
         :: HttpGet (weather_base_url self)
              [("q", city); ("appid", weather_api_key self);
               ("units", "metric")]
         :: logs ++ [ReplyText text])%list
    /\ forallb is_log logs = true
    /\ (length logs <= 2)%nat.
Proof.
  rewrite get_weather_run, get_weather_data_run.
  unfold events, answer; cbn [fst].
  destruct (fetched self upstream city) as [weather_data | e]; cbn [rbind].
  - destruct (if Py.is_None weather_data
              then Ok (Reply.not_found city)
              else format_weather_message file weather_data)
      as [text | e].
    + exists [], text. repeat split. cbn. lia.
    + exists [LogError ("Error getting weather for " ++ city) e],
        Reply.generic_failure.
      repeat split. cbn. lia.
  - exists [LogError "Error fetching weather data" e;
            LogError ("Error getting weather for " ++ city) e],
      Reply.generic_failure.
    repeat split. cbn. lia.
Qed.

(** X3.  When the provider answers 200 and [response.json()] raises, the
    exception is logged by the fetcher, raised again, logged by
    [get_weather], and the user gets the generic failure text. *)
Theorem undecodable_body_reply {runtime : PyRuntime} (file : source_file)
  (self : WeatherBot)
  (upstream : string -> list (string * string) -> http_outcome)
  (city : string) (e : exn) :
  upstream (weather_base_url self) (request_params self city)
  = Responded 200 (Raise e) ->
  outcome (get_weather_data self upstream city) = Raise e
  /\ events (get_weather file self upstream city)
     = [ ChatAction "typing";
         HttpGet (weather_base_url self) (request_params self city);
         LogError "Error fetching weather data" e;
         LogError ("Error getting weather for " ++ city) e;
         ReplyText Reply.generic_failure ]
  /\ outcome (get_weather file self upstream city) = Ok tt.
Proof.
  intros Answer.
  assert (F : fetched self upstream city = Raise e)
    by (unfold fetched; now rewrite Answer).
  rewrite get_weather_run, get_weather_data_run.
  unfold answer, events, outcome. rewrite F. cbn. auto.
Qed.

Lemma undecodable_body_reply_witness :
  replies
    (events (@get_weather Example.runtime weather_bot_cloud Example.bot
               (Example.always
                  (Responded 200 (Raise (ClientError "not JSON"))))
               "London"))
  = [Reply.generic_failure].
Proof.
  destruct (@undecodable_body_reply Example.runtime weather_bot_cloud
              Example.bot
              (Example.always (Responded 200 (Raise (ClientError "not JSON"))))
              "London" (ClientError "not JSON") eq_refl)
    as (_ & Events & _).
  now rewrite Events.
Defined.

(** X4.  When the provider answers 200 with a payload that carries the
    required fields, a numeric condition code and a readable wind entry,
    [get_weather] sends the report as its only reply and logs nothing. *)
Theorem found_reply {runtime : PyRuntime} (file : source_file)
  (self : WeatherBot)
  (upstream : string -> list (string * string) -> http_outcome)
  (city : string) (payload : json) (f : Found) (icon : string) :
  upstream (weather_base_url self) (request_params self city)
  = Responded 200 (Ok payload) ->
  carries payload f ->
  get_weather_emoji (f_condition f) = Ok icon ->
  wind_speed_absent file payload
  \/ (exists speed, json_path payload (wind_speed_path file) = Some speed) ->
  exists speed,
    wind_reading file payload = Ok speed
    /\ events (get_weather file self upstream city)
       = [ ChatAction "typing";
           HttpGet (weather_base_url self) (request_params self city);
           ReplyText (report icon f (Py.str speed)) ]
    /\ outcome (get_weather file self upstream city) = Ok tt.
Proof.
  intros Answer Fields Icon_ok Wind.
  assert (Reading : exists speed, wind_reading file payload = Ok speed).
  { destruct Wind as [Absent | (speed & Present)].
    - eexists. now apply wind_reading_absent.
    - eexists. apply wind_reading_present. exact Present. }
  destruct Reading as (speed & Reading). exists speed.
  assert (F : fetched self upstream city = Ok payload)
    by (unfold fetched; now rewrite Answer).
  assert (Object : Py.is_None payload = false).
  { destruct Fields as (Name & _). destruct payload; try reflexivity.
    discriminate Name. }
  rewrite get_weather_run, get_weather_data_run.
  unfold answer, events, outcome. rewrite F. cbn [fst snd rbind app].
  rewrite Object.
  rewrite (format_found file payload f icon speed Fields Icon_ok Reading).
  auto.
Qed.

Lemma found_reply_witness :
  replies
    (events (@get_weather Example.runtime weather_bot_cloud Example.bot
               (Example.always (Responded 200 (Ok Example.london_windy)))
               "London"))
  = [@report Example.runtime Icon.clouds Example.london_fields "4"].
Proof.
  assert (Fields : carries Example.london_windy Example.london_fields)
    by (repeat split).
  destruct (@found_reply Example.runtime weather_bot_cloud Example.bot
              (Example.always (Responded 200 (Ok Example.london_windy)))
              "London" Example.london_windy Example.london_fields
              Icon.clouds eq_refl Fields eq_refl
              (or_intror (ex_intro _ (JInt 4) eq_refl)))
    as (speed & Reading & Events & _).
  injection Reading as <-. now rewrite Events.
Defined.

(* ================================================================== *)
(** ** The formatter, step by step *)

Section FormatterSteps.

Context {runtime : PyRuntime}.
Variable file : source_file.

Import PyStr.

(** On a payload that carries the required fields, what is left of the
    formatter is the wind reading and the icon selection. *)
Lemma format_carries (payload : json) (f : Found) :
  carries payload f ->
  format_weather_message file payload
  = (speed <- wind_reading file payload ;;
     icon <- get_weather_emoji (f_condition f) ;;
     Ok (report icon f (Py.str speed)))%result.
Proof.
  intros (Hname & Hcountry & Htemp & Hfeels & Hhum & Hpres & Hdesc & Hid).
  apply getitem_path in Hname as (city & Gname & [= ->]).
  apply getitem_path in Hcountry as (sys & Gsys & Hcountry).
  apply getitem_path in Hcountry as (country & Gcountry & [= ->]).
  apply getitem_path in Htemp as (main & Gmain & Htemp).
  apply getitem_path in Htemp as (temp & Gtemp & [= ->]).
  apply getitem_path in Hfeels as (main' & Gmain' & Hfeels).
  rewrite Gmain in Gmain'. injection Gmain' as <-.
  apply getitem_path in Hfeels as (feels & Gfeels & [= ->]).
  apply getitem_path in Hhum as (main' & Gmain' & Hhum).
  rewrite Gmain in Gmain'. injection Gmain' as <-.
  apply getitem_path in Hhum as (hum & Ghum & [= ->]).
  apply getitem_path in Hpres as (main' & Gmain' & Hpres).
  rewrite Gmain in Gmain'. injection Gmain' as <-.
  apply getitem_path in Hpres as (pres & Gpres & [= ->]).
  apply getitem_path in Hdesc as (weather & Gweather & Hdesc).
  apply getitem0_path in Hdesc as (first & Gfirst & Hdesc).
  apply getitem_path in Hdesc as (desc & Gdesc & [= ->]).
  apply getitem_path in Hid as (weather' & Gweather' & Hid).
  rewrite Gweather in Gweather'. injection Gweather' as <-.
  apply getitem0_path in Hid as (first' & Gfirst' & Hid).
  rewrite Gfirst in Gfirst'. injection Gfirst' as <-.
  apply getitem_path in Hid as (cond & Gid & [= ->]).
  unfold format_weather_message, wind_reading.
  rewrite Gname, Gsys; cbn [rbind].
  rewrite Gcountry, Gmain; cbn [rbind].
  rewrite Gtemp, Gfeels, Ghum, Gpres, Gweather; cbn [rbind].
  rewrite Gfirst; cbn [rbind]. rewrite Gdesc; cbn [rbind Py.title].
  destruct (wind_holder file payload) as [holder | e]; [ | reflexivity ].
  cbn [rbind].
  destruct (Py.get holder "wind" (JObj [])) as [wind | e]; [ | reflexivity ].
  cbn [rbind].
  destruct (Py.get wind "speed" (JStr "N/A")) as [speed | e];
    [ | reflexivity ].
  cbn [rbind]. rewrite Gid; cbn [rbind].
  destruct (get_weather_emoji (f_condition f)) as [icon | e];
    [ | reflexivity ].
  cbn [rbind Py.str]. unfold report. now rewrite fstring_lines.
Qed.

(** Every message the formatter returns starts with one of the seven icons
    followed by [" Weather in "]. *)
Lemma format_ok_header (payload : json) (message : string) :
  format_weather_message file payload = Ok message ->
  exists icon rest,
    In icon Icon.all /\ message = icon ++ " Weather in " ++ rest.
Proof.
  unfold format_weather_message. intros H.
  do 21 (apply rbind_ok in H as (? & _ & H)).
  apply rbind_ok in H as (icon & Icon_ok & H).
  injection H as <-.
  apply get_weather_emoji_ok in Icon_ok as (_ & Member).
  exists icon. eexists. split; [ exact Member | reflexivity ].
Qed.

(** No text that starts with an icon and [" Weather in "] is one of the
    fixed replies. *)
Lemma header_not_fixed_reply (icon rest city : string) :
  In icon Icon.all ->
  icon ++ " Weather in " ++ rest <> Reply.generic_failure
  /\ icon ++ " Weather in " ++ rest <> Reply.not_found city
  /\ icon ++ " Weather in " ++ rest <> Reply.guidance
  /\ icon ++ " Weather in " ++ rest <> Reply.unknown_command.
Proof.
  unfold Icon.all; cbn [In].
  intros Member.
  repeat (destruct Member as [<- | Member]; [ repeat split; discriminate | ]).
  contradiction.
Qed.

End FormatterSteps.

(* ================================================================== *)
(** ** Telling the replies apart *)

(** X5.  A report is never one of the fixed texts, and the fixed texts
    differ from one another whatever the city: the reply alone tells a
    report, a not-found answer, a failure, the guidance and the
    unknown-command answer apart. *)
Theorem replies_are_distinguishable {runtime : PyRuntime}
  (file : source_file) (payload : json) (city : string) :
  (forall message,
      format_weather_message file payload = Ok message ->
      message <> Reply.generic_failure
      /\ message <> Reply.not_found city
      /\ message <> Reply.guidance
      /\ message <> Reply.unknown_command)
  /\ NoDup [ Reply.generic_failure; Reply.not_found city; Reply.guidance;
             Reply.unknown_command ].
Proof.
  split.
  - intros message Formatted.
    apply format_ok_header in Formatted as (icon & rest & Member & ->).
    now apply header_not_fixed_reply.
  - repeat (constructor;
            [ cbn [In]; intros H;
              repeat (destruct H as [H | H]; [ discriminate H | ]); exact H
            | ]).
    constructor.
Qed.

(** X6.  [get_weather] sends the generic failure text exactly when an
    exception reached its [except] clause, in which case that exception is
    logged; when the reply is anything else, nothing is logged. *)
Theorem generic_reply_iff_logged {runtime : PyRuntime} (file : source_file)
  (self : WeatherBot)
  (upstream : string -> list (string * string) -> http_outcome)
  (city : string) :
  (replies (events (get_weather file self upstream city))
   = [Reply.generic_failure]
   <-> exists e,
       In (LogError ("Error getting weather for " ++ city) e)
          (events (get_weather file self upstream city)))
  /\ (replies (events (get_weather file self upstream city))
      <> [Reply.generic_failure]
      -> filter is_log (events (get_weather file self upstream city)) = []).
Proof.
  rewrite get_weather_run, get_weather_data_run.
  unfold events, answer; cbn [fst].
  destruct (fetched self upstream city) as [weather_data | e]; cbn [rbind].
  - destruct (Py.is_None weather_data) eqn:None.
    + cbn. split; [ split | reflexivity ].
      * intros Same. discriminate Same.
      * intros (e & [Bad | [Bad | [Bad | []]]]); discriminate Bad.
    + destruct (format_weather_message file weather_data)
        as [message | e] eqn:Formatted.
      * apply format_ok_header in Formatted as (icon & rest & Member & ->).
        destruct (header_not_fixed_reply icon rest city Member)
          as (Not_generic & _).
        cbn. split; [ split | reflexivity ].
        -- intros [= Same]. contradiction.
        -- intros (e & [Bad | [Bad | [Bad | []]]]); discriminate Bad.
      * cbn. split; [ split | ].
        -- intros _. exists e. auto.
        -- reflexivity.
        -- intros Bad. contradiction.
  - cbn. split; [ split | ].
    + intros _. exists e. auto.
    + reflexivity.
    + intros Bad. contradiction.
Qed.

(* ================================================================== *)
(** ** Ill-typed and empty entries *)

Section FormatterErrors.

Context {runtime : PyRuntime}.
Variable file : source_file.

Lemma path_found (payload : json) (path : list step) :
  json_path payload path <> None -> exists x, json_path payload path = Some x.
Proof.
  destruct (json_path payload path) as [x | ]; [ eauto | contradiction ].
Qed.

(** The formatter up to the subscript [['weather'][0]], on a payload with
    the six fields read before it. *)
Lemma format_from_weather (payload : json) :
  json_path payload [Key "name"] <> None ->
  json_path payload [Key "sys"; Key "country"] <> None ->
  json_path payload [Key "main"; Key "temp"] <> None ->
  json_path payload [Key "main"; Key "feels_like"] <> None ->
  json_path payload [Key "main"; Key "humidity"] <> None ->
  json_path payload [Key "main"; Key "pressure"] <> None ->
  forall weather,
    json_path payload [Key "weather"] = Some weather ->
    (exists e, Py.getitem0 weather = Raise e
               /\ format_weather_message file payload = Raise e)
    \/ (exists first, Py.getitem0 weather = Ok first
        /\ ((exists e, Py.getitem first "description" = Raise e
                       /\ format_weather_message file payload = Raise e)
            \/ (exists d, Py.getitem first "description" = Ok d
                /\ (is_text d = false ->
                    format_weather_message file payload
                    = Raise AttributeError)))).
Proof.
  intros Hname Hcountry Htemp Hfeels Hhum Hpres weather Hweather.
  apply path_found in Hname as (city & Hname).
  apply path_found in Hcountry as (country & Hcountry).
  apply path_found in Htemp as (temp & Htemp).
  apply path_found in Hfeels as (feels & Hfeels).
  apply path_found in Hhum as (hum & Hhum).
  apply path_found in Hpres as (pres & Hpres).
  apply getitem_path in Hname as (city' & Gname & _).
  apply getitem_path in Hcountry as (sys & Gsys & Hcountry).
  apply getitem_path in Hcountry as (country' & Gcountry & _).
  apply getitem_path in Htemp as (main & Gmain & Htemp).
  apply getitem_path in Htemp as (temp' & Gtemp & _).
  apply getitem_path in Hfeels as (main' & Gmain' & Hfeels).
  rewrite Gmain in Gmain'. injection Gmain' as <-.
  apply getitem_path in Hfeels as (feels' & Gfeels & _).
  apply getitem_path in Hhum as (main' & Gmain' & Hhum).
  rewrite Gmain in Gmain'. injection Gmain' as <-.
  apply getitem_path in Hhum as (hum' & Ghum & _).
  apply getitem_path in Hpres as (main' & Gmain' & Hpres).
  rewrite Gmain in Gmain'. injection Gmain' as <-.
  apply getitem_path in Hpres as (pres' & Gpres & _).
  apply getitem_path in Hweather as (weather' & Gweather & [= ->]).
  unfold format_weather_message.
  rewrite Gname, Gsys; cbn [rbind].
  rewrite Gcountry, Gmain; cbn [rbind].
  rewrite Gtemp, Gfeels, Ghum, Gpres, Gweather; cbn [rbind].
  destruct (Py.getitem0 weather) as [first | e]; cbn [rbind];
    [ right; exists first; split; [ reflexivity | ] | left; eauto ].
  destruct (Py.getitem first "description") as [d | e]; cbn [rbind];
    [ right; exists d; split; [ reflexivity | ] | left; eauto ].
  intros Not_text. destruct d; try discriminate Not_text; reflexivity.
Qed.

Lemma wind_reading_not_object (payload wind : json) :
  json_path payload (wind_holder_path file ++ [Key "wind"]) = Some wind ->
  is_object wind = false ->
  wind_reading file payload = Raise AttributeError.
Proof.
  rewrite json_path_app.
  destruct (json_path payload (wind_holder_path file)) as [holder | ] eqn:P;
    [ | discriminate ].
  intros W Not_object. unfold wind_reading, wind_holder.
  assert (H : match file with
              | weather_bot => Py.getitem payload "main"
              | weather_bot_cloud => Ok payload
              end = Ok holder).
  { destruct file; cbn in P.
    - destruct payload; try discriminate.
      cbn. destruct (Py.dict_lookup "main" items); [ | discriminate ].
      now injection P as ->.
    - now injection P as ->. }
  rewrite H. cbn [rbind].
  apply getitem_path in W as (wind' & G & [= ->]).
  apply getitem_ok in G as (items & -> & Lookup).
  cbn. rewrite Lookup. cbn.
  destruct wind; try discriminate Not_object; reflexivity.
Qed.

End FormatterErrors.

(** X7.  When the fields read before it are present and
    [weather[0].description] is not a string, the formatter raises
    [AttributeError] (the value has no [title] method). *)
Theorem description_not_text_raises {runtime : PyRuntime}
  (file : source_file) (payload description : json) :
  carries_up_to_description payload description ->
  is_text description = false ->
  format_weather_message file payload = Raise AttributeError.
Proof.
  intros (Hname & Hcountry & Htemp & Hfeels & Hhum & Hpres & Hdesc) Not_text.
  apply getitem_path in Hdesc as (weather & Gweather & Hdesc).
  assert (Hweather : json_path payload [Key "weather"] = Some weather)
    by (apply getitem_path; eauto).
  apply getitem0_path in Hdesc as (first & Gfirst & Hdesc).
  apply getitem_path in Hdesc as (d & Gdesc & [= ->]).
  destruct (format_from_weather file payload Hname Hcountry Htemp Hfeels
              Hhum Hpres weather Hweather)
    as [(e & Bad & _) | (first' & Gfirst' & [(e & Bad & _) | (d' & Gd & Go)])].
  - rewrite Gfirst in Bad. discriminate Bad.
  - rewrite Gfirst in Gfirst'. injection Gfirst' as <-.
    rewrite Gdesc in Bad. discriminate Bad.
  - rewrite Gfirst in Gfirst'. injection Gfirst' as <-.
    rewrite Gdesc in Gd. injection Gd as <-. exact (Go Not_text).
Qed.

Lemma description_not_text_raises_witness :
  @format_weather_message Example.runtime weather_bot
    (Sample.payload (Sample.conditions (JInt 801) (JInt 5)) [])
  = Raise AttributeError.
Proof.
  apply (@description_not_text_raises Example.runtime weather_bot
           (Sample.payload (Sample.conditions (JInt 801) (JInt 5)) [])
           (JInt 5)).
  - repeat split; discriminate.
  - reflexivity.
Defined.

(** X8.  When the required fields are present and ['weather'] is an empty
    list, the subscript [[0]] raises [IndexError] and so does the
    formatter. *)
Theorem empty_weather_list_raises {runtime : PyRuntime}
  (file : source_file) (payload : json) :
  json_path payload [Key "name"] <> None ->
  json_path payload [Key "sys"; Key "country"] <> None ->
  json_path payload [Key "main"; Key "temp"] <> None ->
  json_path payload [Key "main"; Key "feels_like"] <> None ->
  json_path payload [Key "main"; Key "humidity"] <> None ->
  json_path payload [Key "main"; Key "pressure"] <> None ->
  json_path payload [Key "weather"] = Some (JArr []) ->
  format_weather_message file payload = Raise IndexError.
Proof.
  intros Hname Hcountry Htemp Hfeels Hhum Hpres Hweather.
  destruct (format_from_weather file payload Hname Hcountry Htemp Hfeels
              Hhum Hpres (JArr []) Hweather)
    as [(e & Bad & Raised) | (first & Bad & _)].
  - cbn in Bad. injection Bad as <-. exact Raised.
  - discriminate Bad.
Qed.

Lemma empty_weather_list_raises_witness :
  @format_weather_message Example.runtime weather_bot_cloud
    (Sample.payload (JArr []) [])
  = Raise IndexError.
Proof.
  apply (@empty_weather_list_raises Example.runtime weather_bot_cloud
           (Sample.payload (JArr []) []));
    try discriminate; reflexivity.
Defined.

(** X9.  When the required fields are present, the wind entry is readable
    and [weather[0].id] is not a number, the comparison [weather_id < 300]
    raises [TypeError] and so does the formatter. *)
Theorem condition_not_number_raises {runtime : PyRuntime}
  (file : source_file) (payload : json) (f : Found) :
  carries payload f ->
  wind_speed_absent file payload
  \/ (exists speed, json_path payload (wind_speed_path file) = Some speed) ->
  is_number (f_condition f) = false ->
  format_weather_message file payload = Raise TypeError.
Proof.
  intros Fields Wind Not_number.
  rewrite (format_carries file payload f Fields).
  assert (Reading : exists speed, wind_reading file payload = Ok speed).
  { destruct Wind as [Absent | (speed & Present)].
    - eexists. now apply wind_reading_absent.
    - eexists. apply wind_reading_present. exact Present. }
  destruct Reading as (speed & ->). cbn [rbind].
  now rewrite (get_weather_emoji_not_number _ Not_number).
Qed.

Lemma condition_not_number_raises_witness :
  @format_weather_message Example.runtime weather_bot
    (Sample.payload (Sample.conditions (JStr "801") (JStr "few clouds")) [])
  = Raise TypeError.
Proof.
  apply (@condition_not_number_raises Example.runtime weather_bot
           (Sample.payload
              (Sample.conditions (JStr "801") (JStr "few clouds")) [])
           (Sample.fields (JStr "801"))).
  - repeat split.
  - left. eexists. split; [ reflexivity | left; reflexivity ].
  - reflexivity.
Defined.

(** X10.  When the required fields are present and the ['wind'] entry the
    file reads is there but is not an object ([null], a number, a string,
    a list), [.get('speed', 'N/A')] raises [AttributeError] and so does the
    formatter: the ["N/A"] default covers a missing entry only. *)
Theorem wind_not_object_raises {runtime : PyRuntime}
  (file : source_file) (payload : json) (f : Found) (wind : json) :
  carries payload f ->
  json_path payload (wind_holder_path file ++ [Key "wind"]) = Some wind ->
  is_object wind = false ->
  format_weather_message file payload = Raise AttributeError.
Proof.
  intros Fields Wind Not_object.
  rewrite (format_carries file payload f Fields).
  now rewrite (wind_reading_not_object file payload wind Wind Not_object).
Qed.

Lemma wind_not_object_raises_witness :
  @format_weather_message Example.runtime weather_bot_cloud
    (Sample.payload (Sample.conditions (JInt 801) (JStr "few clouds"))
       [("wind", JNull)])
  = Raise AttributeError.
Proof.
  apply (@wind_not_object_raises Example.runtime weather_bot_cloud
           (Sample.payload (Sample.conditions (JInt 801) (JStr "few clouds"))
              [("wind", JNull)])
           (Sample.fields (JInt 801)) JNull).
  - repeat split.
  - reflexivity.
  - reflexivity.
Defined.

(* ================================================================== *)
(** ** [str.strip] *)

Section Strip.

Import PyStr.

Lemma drop_prefix_some (p s rest : string) :
  drop_prefix p s = Some rest <-> s = p ++ rest.
Proof.
  revert s; induction p as [ | a p IH]; intros s; cbn.
  - split; [ intros [= ->] | intros -> ]; reflexivity.
  - destruct s as [ | b s]; [ split; discriminate | ].
    destruct (Ascii.eqb_spec a b) as [-> | Different].
    + rewrite IH. split; [ intros -> | intros [= ->] ]; reflexivity.
    + split; [ discriminate | ].
      intros [= Same _]. now symmetry in Same.
Qed.

Lemma drop_any_some (ps : list string) (s rest : string) :
  drop_any ps s = Some rest -> exists p, In p ps /\ s = p ++ rest.
Proof.
  induction ps as [ | p ps IH]; cbn; [ discriminate | ].
  destruct (drop_prefix p s) as [rest' | ] eqn:D.
  - intros [= ->]. apply drop_prefix_some in D. eauto.
  - intros Later. destruct (IH Later) as (q & Member & E). eauto.
Qed.

Lemma drop_any_hit (ps : list string) (s p rest : string) :
  In p ps -> s = p ++ rest -> drop_any ps s <> None.
Proof.
  induction ps as [ | q ps IH]; cbn; [ contradiction | ].
  intros [-> | Member] E.
  - apply drop_prefix_some in E. rewrite E. discriminate.
  - destruct (drop_prefix q s); [ discriminate | now apply IH ].
Qed.

Lemma drop_any_empty (ps : list string) :
  Forall nonempty ps -> drop_any ps "" = None.
Proof.
  intros Nonempty. destruct (drop_any ps "") as [rest | ] eqn:D;
    [ | reflexivity ].
  apply drop_any_some in D as (p & Member & E).
  rewrite Forall_forall in Nonempty. specialize (Nonempty p Member).
  destruct p; [ now contradiction Nonempty | discriminate E ].
Qed.

Lemma drop_any_shorter (ps : list string) (s rest : string) :
  Forall nonempty ps -> drop_any ps s = Some rest ->
  (String.length rest < String.length s)%nat.
Proof.
  intros Nonempty D. apply drop_any_some in D as (p & Member & ->).
  rewrite Forall_forall in Nonempty. specialize (Nonempty p Member).
  rewrite length_append. destruct p; [ now contradiction Nonempty | cbn; lia ].
Qed.

(** With enough fuel nothing is left to drop. *)
Lemma lstrip_fuel_done (ps : list string) :
  Forall nonempty ps ->
  forall fuel s, (String.length s <= fuel)%nat ->
                 drop_any ps (lstrip_fuel ps fuel s) = None.
Proof.
  intros Nonempty. induction fuel as [ | fuel IH]; intros s Enough; cbn.
  - destruct s; [ now apply drop_any_empty | cbn in Enough; lia ].
  - destruct (drop_any ps s) as [rest | ] eqn:D; [ | exact D ].
    apply IH. pose proof (drop_any_shorter ps s rest Nonempty D). lia.
Qed.

Lemma lstrip_fuel_suffix (ps : list string) (fuel : nat) (s : string) :
  exists dropped, s = dropped ++ lstrip_fuel ps fuel s.
Proof.
  revert s; induction fuel as [ | fuel IH]; intros s; cbn.
  - now exists "".
  - destruct (drop_any ps s) as [rest | ] eqn:D; [ | now exists "" ].
    apply drop_any_some in D as (p & _ & ->).
    destruct (IH rest) as (dropped & E).
    exists (p ++ dropped). rewrite append_assoc. now rewrite <- E.
Qed.

Lemma lstrip_fuel_fixed (ps : list string) (fuel : nat) (s : string) :
  drop_any ps s = None -> lstrip_fuel ps fuel s = s.
Proof.
  intros D. destruct fuel; cbn; [ reflexivity | now rewrite D ].
Qed.

(** More fuel than the length changes nothing. *)
Lemma lstrip_fuel_enough (ps : list string) :
  Forall nonempty ps ->
  forall fuel fuel' s,
    (String.length s <= fuel)%nat -> (String.length s <= fuel')%nat ->
    lstrip_fuel ps fuel s = lstrip_fuel ps fuel' s.
Proof.
  intros Nonempty.
  induction fuel as [ | fuel IH]; intros fuel' s Enough Enough'.
  - destruct s; [ | cbn in Enough; lia ].
    destruct fuel'; cbn; [ reflexivity | ].
    now rewrite (drop_any_empty ps Nonempty).
  - destruct fuel' as [ | fuel'].
    + destruct s; [ | cbn in Enough'; lia ].
      cbn. now rewrite (drop_any_empty ps Nonempty).
    + cbn. destruct (drop_any ps s) as [rest | ] eqn:D; [ | reflexivity ].
      pose proof (drop_any_shorter ps s rest Nonempty D) as Shorter.
      apply IH; lia.
Qed.

Lemma list_of_append (a b : string) :
  list_ascii_of_string (a ++ b)
  = (list_ascii_of_string a ++ list_ascii_of_string b)%list.
Proof.
  induction a as [ | c a IH]; cbn; [ reflexivity | now rewrite IH ].
Qed.

Lemma string_of_app (l l' : list ascii) :
  string_of_list_ascii (l ++ l')
  = string_of_list_ascii l ++ string_of_list_ascii l'.
Proof.
  induction l as [ | c l IH]; cbn; [ reflexivity | now rewrite IH ].
Qed.

Lemma reverse_append (a b : string) :
  reverse (a ++ b) = reverse b ++ reverse a.
Proof.
  unfold reverse. now rewrite list_of_append, rev_app_distr, string_of_app.
Qed.

Lemma reverse_involutive (a : string) : reverse (reverse a) = a.
Proof.
  unfold reverse.
  now rewrite list_ascii_of_string_of_list_ascii, rev_involutive,
    string_of_list_ascii_of_string.
Qed.

Lemma reverse_length (a : string) :
  String.length (reverse a) = String.length a.
Proof.
  induction a as [ | c a IH]; [ reflexivity | ].
  change (String c a) with (String c "" ++ a).
  rewrite reverse_append, !length_append, IH. cbn. lia.
Qed.

Lemma whitespace_nonempty : Forall nonempty whitespace.
Proof.
  apply Forall_forall. intros p Member Empty. subst p.
  assert (Check : existsb (String.eqb "") whitespace = false)
    by (vm_compute; reflexivity).
  assert (Found : existsb (String.eqb "") whitespace = true).
  { apply existsb_exists. exists "". split; [ exact Member | reflexivity ]. }
  rewrite Check in Found. discriminate Found.
Qed.

Lemma reversed_whitespace_nonempty : Forall nonempty (map reverse whitespace).
Proof.
  apply Forall_forall. intros p Member Empty. subst p.
  assert (Check : existsb (String.eqb "") (map reverse whitespace) = false)
    by (vm_compute; reflexivity).
  assert (Found : existsb (String.eqb "") (map reverse whitespace) = true).
  { apply existsb_exists. exists "". split; [ exact Member | reflexivity ]. }
  rewrite Check in Found. discriminate Found.
Qed.

Lemma lstrip_no_leading (s : string) : drop_any whitespace (lstrip s) = None.
Proof.
  unfold lstrip. apply lstrip_fuel_done; [ apply whitespace_nonempty | lia ].
Qed.

(** [rstrip] cuts a suffix off. *)
Lemma rstrip_prefix (s : string) : exists dropped, s = rstrip s ++ dropped.
Proof.
  unfold rstrip.
  destruct (lstrip_fuel_suffix (map reverse whitespace) (String.length s)
              (reverse s)) as (dropped & E).
  exists (reverse dropped).
  rewrite <- reverse_append, <- E. now rewrite reverse_involutive.
Qed.

Lemma strip_no_leading (s : string) : drop_any whitespace (strip s) = None.
Proof.
  unfold strip.
  destruct (drop_any whitespace (rstrip (lstrip s))) as [rest | ] eqn:D;
    [ | reflexivity ].
  exfalso.
  apply drop_any_some in D as (p & Member & E).
  destruct (rstrip_prefix (lstrip s)) as (dropped & Whole).
  rewrite E, append_assoc in Whole.
  exact (drop_any_hit whitespace (lstrip s) p _ Member Whole
           (lstrip_no_leading s)).
Qed.

Lemma strip_no_trailing (s : string) :
  drop_any (map reverse whitespace) (reverse (strip s)) = None.
Proof.
  unfold strip, rstrip. rewrite reverse_involutive.
  apply lstrip_fuel_done; [ apply reversed_whitespace_nonempty | ].
  now rewrite reverse_length.
Qed.

Lemma strip_trimmed (s : string) :
  ~ starts_with_space (strip s) /\ ~ ends_with_space (strip s).
Proof.
  split.
  - intros (w & rest & Member & E).
    exact (drop_any_hit whitespace (strip s) w rest Member E
             (strip_no_leading s)).
  - intros (w & rest & Member & E).
    apply (f_equal reverse) in E. rewrite reverse_append in E.
    exact (drop_any_hit (map reverse whitespace) (reverse (strip s))
             (reverse w) (reverse rest) (in_map reverse _ _ Member) E
             (strip_no_trailing s)).
Qed.

Lemma strip_idempotent (s : string) : strip (strip s) = strip s.
Proof.
  assert (Left : lstrip (strip s) = strip s).
  { unfold lstrip. apply lstrip_fuel_fixed, strip_no_leading. }
  unfold strip at 1. rewrite Left. unfold rstrip.
  rewrite (lstrip_fuel_fixed _ _ _ (strip_no_trailing s)).
  apply reverse_involutive.
Qed.

(** When two texts with a common continuation are equal, one of the two
    heads is a prefix of the other. *)
Lemma append_eq_prefix (a b s r : string) :
  a ++ s = b ++ r -> String.prefix a b = true \/ String.prefix b a = true.
Proof.
  revert b; induction a as [ | x a IH]; intros b E.
  - left. now destruct b.
  - destruct b as [ | y b]; [ right; reflexivity | ].
    cbn in E. injection E as -> E.
    cbn. destruct (Ascii.ascii_dec y y) as [_ | Different];
      [ now apply IH in E | contradiction ].
Qed.

(** No whitespace sequence is a proper prefix of another. *)
Lemma whitespace_prefix_free (a b : string) :
  In a whitespace -> In b whitespace -> String.prefix a b = true -> a = b.
Proof.
  intros Ma Mb P.
  assert (Check :
            forallb (fun x =>
                       forallb (fun y =>
                                  implb (String.prefix x y) (String.eqb x y))
                         whitespace)
              whitespace = true) by (vm_compute; reflexivity).
  rewrite forallb_forall in Check. specialize (Check a Ma).
  rewrite forallb_forall in Check. specialize (Check b Mb).
  rewrite P in Check. cbn in Check. now apply String.eqb_eq.
Qed.

Lemma drop_any_whitespace (w s : string) :
  In w whitespace -> drop_any whitespace (w ++ s) = Some s.
Proof.
  intros Member.
  destruct (drop_any whitespace (w ++ s)) as [rest | ] eqn:D.
  - apply drop_any_some in D as (p & Member' & E).
    assert (Same : w = p).
    { destruct (append_eq_prefix w p s rest E) as [P | P].
      - now apply whitespace_prefix_free.
      - symmetry. now apply whitespace_prefix_free. }
    subst p. apply append_cancel_l in E. now subst.
  - exfalso. exact (drop_any_hit whitespace _ w s Member eq_refl D).
Qed.

Lemma lstrip_leading (w s : string) :
  In w whitespace -> lstrip (w ++ s) = lstrip s.
Proof.
  intros Member. unfold lstrip.
  pose proof whitespace_nonempty as Nonempty.
  assert (Long : exists k, String.length (w ++ s) = S k
                           /\ (String.length s <= k)%nat).
  { rewrite length_append.
    rewrite Forall_forall in Nonempty. specialize (Nonempty w Member).
    destruct w; [ now contradiction Nonempty | ].
    cbn. eexists. split; [ reflexivity | lia ]. }
  destruct Long as (k & -> & Enough).
  cbn [lstrip_fuel]. rewrite (drop_any_whitespace w s Member).
  apply lstrip_fuel_enough; [ exact Nonempty | exact Enough | lia ].
Qed.

Lemma strip_leading (w s : string) :
  In w whitespace -> strip (w ++ s) = strip s.
Proof.
  intros Member. unfold strip. now rewrite lstrip_leading.
Qed.

(** Dropping a sequence without ['/'] from a text that ends with ['/']
    leaves a text that ends with ['/']. *)
Lemma drop_keeps_slash (p t left : string) :
  forallb (fun c => negb (Ascii.eqb c "/")) (list_ascii_of_string p) = true ->
  t ++ "/" = p ++ left -> exists t', left = t' ++ "/".
Proof.
  revert t; induction p as [ | c p IH]; intros t No_slash Split.
  - cbn in Split. subst left. eauto.
  - cbn in No_slash. apply andb_prop in No_slash as (Not & Rest).
    destruct t as [ | x t]; cbn in Split.
    + injection Split as <- _. cbn in Not. discriminate Not.
    + injection Split as _ Split. exact (IH t Rest Split).
Qed.

Lemma lstrip_fuel_keeps_slash (fuel : nat) (t : string) :
  exists t', lstrip_fuel (map reverse whitespace) fuel (t ++ "/") = t' ++ "/".
Proof.
  revert t; induction fuel as [ | fuel IH]; intros t; cbn [lstrip_fuel];
    [ eauto | ].
  destruct (drop_any (map reverse whitespace) (t ++ "/")) as [left | ] eqn:D;
    [ | eauto ].
  apply drop_any_some in D as (p & Member & Split).
  assert (No_slash :
            forallb (fun q =>
                       forallb (fun c => negb (Ascii.eqb c "/"))
                         (list_ascii_of_string q))
              (map reverse whitespace) = true)
    by (vm_compute; reflexivity).
  rewrite forallb_forall in No_slash. specialize (No_slash p Member).
  destruct (drop_keeps_slash p t left No_slash Split) as (t' & ->).
  apply IH.
Qed.

(** A text that starts with ['/'] still does after [strip]. *)
Lemma strip_slash (rest : string) :
  exists rest', strip (String "/" rest) = String "/" rest'.
Proof.
  assert (Left : lstrip (String "/" rest) = String "/" rest).
  { unfold lstrip. apply lstrip_fuel_fixed. reflexivity. }
  unfold strip. rewrite Left. unfold rstrip.
  change (String "/" rest) with ("/" ++ rest) at 2.
  rewrite reverse_append. change (reverse "/") with "/".
  destruct (lstrip_fuel_keeps_slash (String.length (String "/" rest))
              (reverse rest)) as (t' & ->).
  rewrite reverse_append. change (reverse "/") with "/".
  cbn. eauto.
Qed.

End Strip.

(* ================================================================== *)
(** ** The routes to a lookup *)

Section Routes.

Context {runtime : PyRuntime}.
Variable file : source_file.
Variable self : WeatherBot.
Variable upstream : string -> list (string * string) -> http_outcome.

Import PyStr.

Lemma get_weather_requests (city : string) :
  filter is_request (events (get_weather file self upstream city))
  = [HttpGet (weather_base_url self) (request_params self city)].
Proof.
  rewrite get_weather_run, get_weather_data_run.
  unfold events; cbn [fst]. cbn [app filter is_request].
  rewrite filter_app.
  destruct (fetched self upstream city);
    destruct (answer file self upstream city); reflexivity.
Qed.

Lemma join_nonempty (first : string) (more : list string) :
  first <> "" -> join " " (first :: more) <> "".
Proof.
  intros Nonempty. unfold join. cbn [String.concat].
  destruct more as [ | second more]; [ exact Nonempty | ].
  destruct first; [ now contradiction Nonempty | discriminate ].
Qed.

Lemma startswith_slash (rest : string) :
  startswith (String "/" rest) "/" = true.
Proof.
  unfold startswith. cbn [String.prefix].
  destruct (ascii_dec "/" "/") as [_ | Different]; [ | contradiction ].
  destruct rest; reflexivity.
Qed.

End Routes.

(** X11.  A text message that is not a command makes [handle_message] send
    exactly one request, whose city is the text without the whitespace
    around it: the city sent neither starts nor ends with a whitespace
    character. *)
Theorem handle_message_queries_trimmed_text {runtime : PyRuntime}
  (file : source_file) (self : WeatherBot)
  (upstream : string -> list (string * string) -> http_outcome)
  (text : string) :
  PyStr.startswith (PyStr.strip text) "/" = false ->
  handle_message file self upstream text
  = get_weather file self upstream (PyStr.strip text)
  /\ queried_cities (events (handle_message file self upstream text))
     = [PyStr.strip text]
  /\ ~ starts_with_space (PyStr.strip text)
  /\ ~ ends_with_space (PyStr.strip text).
Proof.
  intros Plain.
  assert (E : handle_message file self upstream text
              = get_weather file self upstream (PyStr.strip text))
    by (unfold handle_message; now rewrite Plain).
  repeat apply conj.
  - exact E.
  - rewrite E. apply get_weather_queries.
  - apply strip_trimmed.
  - apply strip_trimmed.
Qed.

Lemma handle_message_queries_trimmed_text_witness :
  queried_cities
    (events (@handle_message Example.runtime weather_bot Example.bot
               (Example.always (Responded 404 (Ok JNull)))
               "  New York  "))
  = ["New York"].
Proof.
  exact (proj1 (proj2 (@handle_message_queries_trimmed_text Example.runtime
                         weather_bot Example.bot
                         (Example.always (Responded 404 (Ok JNull)))
                         "  New York  " eq_refl))).
Defined.

(** X12.  [handle_message] ignores whitespace in front of the text, and
    treats a text and its stripped form alike. *)
Theorem handle_message_ignores_leading_space {runtime : PyRuntime}
  (file : source_file) (self : WeatherBot)
  (upstream : string -> list (string * string) -> http_outcome)
  (text : string) :
  (forall w,
      In w PyStr.whitespace ->
      handle_message file self upstream (w ++ text)
      = handle_message file self upstream text)
  /\ handle_message file self upstream (PyStr.strip text)
     = handle_message file self upstream text.
Proof.
  split.
  - intros w Member. unfold handle_message. now rewrite strip_leading.
  - unfold handle_message. now rewrite strip_idempotent.
Qed.

(** X13.  A text that starts with ['/'] is answered with the
    unknown-command text, whatever follows, and no request is sent. *)
Theorem handle_message_slash {runtime : PyRuntime}
  (file : source_file) (self : WeatherBot)
  (upstream : string -> list (string * string) -> http_outcome)
  (rest : string) :
  handle_message file self upstream (String "/" rest)
  = ([ReplyText Reply.unknown_command], Ok tt).
Proof.
  unfold handle_message.
  destruct (strip_slash rest) as (rest' & ->).
  now rewrite startswith_slash.
Qed.

(** X14.  With at least one argument token, [weather_command] looks up the
    tokens joined by single spaces, in one request; when the first token is
    not empty, neither is the city sent. *)
Theorem weather_command_queries_joined_city {runtime : PyRuntime}
  (file : source_file) (self : WeatherBot)
  (upstream : string -> list (string * string) -> http_outcome)
  (first : string) (more : list string) :
  weather_command file self upstream (first :: more)
  = get_weather file self upstream (PyStr.join " " (first :: more))
  /\ filter is_request
       (events (weather_command file self upstream (first :: more)))
     = [ HttpGet (weather_base_url self)
           [("q", PyStr.join " " (first :: more));
            ("appid", weather_api_key self); ("units", "metric")] ]
  /\ (first <> "" -> PyStr.join " " (first :: more) <> "")
  /\ PyStr.join " " [first] = first
  /\ (forall second rest,
         PyStr.join " " (first :: second :: rest)
         = first ++ " " ++ PyStr.join " " (second :: rest)).
Proof.
  repeat apply conj.
  - reflexivity.
  - apply (get_weather_requests file self upstream).
  - apply join_nonempty.
  - reflexivity.
  - reflexivity.
Qed.

(** X15.  A city without surrounding whitespace that does not start with
    ['/'] is handled the same way as the one token of a [/weather] command
    and as a plain text message. *)
Theorem routes_agree {runtime : PyRuntime}
  (file : source_file) (self : WeatherBot)
  (upstream : string -> list (string * string) -> http_outcome)
  (city : string) :
  PyStr.strip city = city ->
  PyStr.startswith city "/" = false ->
  weather_command file self upstream [city]
  = handle_message file self upstream city.
Proof.
  intros Stripped Plain. unfold handle_message, weather_command.
  rewrite Stripped, Plain. reflexivity.
Qed.

Lemma routes_agree_witness :
  @weather_command Example.runtime weather_bot Example.bot
    (Example.always (Responded 200 (Ok Example.london))) ["London"]
  = @handle_message Example.runtime weather_bot Example.bot
      (Example.always (Responded 200 (Ok Example.london))) "London".
Proof.
  exact (@routes_agree Example.runtime weather_bot Example.bot
           (Example.always (Responded 200 (Ok Example.london))) "London"
           eq_refl eq_refl).
Defined.

(** X16.  Every handler ends normally after exactly one reply and at most
    one request: [start], [help_command], [weather_command] on any
    arguments and [handle_message] on any text. *)
Theorem handlers_reply_exactly_once {runtime : PyRuntime}
  (file : source_file) (self : WeatherBot)
  (upstream : string -> list (string * string) -> http_outcome)
  (args : list string) (text : string) :
  (exists reply, replied_once start reply
                 /\ filter is_request (events start) = [])
  /\ (exists reply, replied_once help_command reply
                    /\ filter is_request (events help_command) = [])
  /\ (exists reply,
         replied_once (weather_command file self upstream args) reply
         /\ (length (filter is_request
                       (events (weather_command file self upstream args)))
             <= 1)%nat)
  /\ (exists reply,
         replied_once (handle_message file self upstream text) reply
         /\ (length (filter is_request
                       (events (handle_message file self upstream text)))
             <= 1)%nat).
Proof.
  repeat apply conj.
  - eexists. repeat split.
  - eexists. repeat split.
  - destruct args as [ | first more].
    + eexists. split; [ split; reflexivity | cbn; lia ].
    + eexists. split; [ apply get_weather_replies_once | ].
      cbn [weather_command]. rewrite get_weather_requests. cbn. lia.
  - unfold handle_message.
    destruct (PyStr.startswith (PyStr.strip text) "/").
    + eexists. split; [ split; reflexivity | cbn; lia ].
    + eexists. split; [ apply get_weather_replies_once | ].
      rewrite get_weather_requests. cbn. lia.
Qed.

(* ================================================================== *)
(** ** Start-up of [weather_bot_cloud.py] *)

Section CloudStartup.

Lemma not_is_false (value : option string) :
  Cloud.not_ value = false <-> exists s, value = Some s /\ s <> "".
Proof.
  split.
  - destruct value as [[ | c s] | ]; try discriminate.
    intros _. eexists. split; [ reflexivity | discriminate ].
  - intros (s & -> & Nonempty). destruct s; [ now contradiction Nonempty | ].
    reflexivity.
Qed.

End CloudStartup.

(** X17.  The main block of [weather_bot_cloud.py] runs the bot exactly
    when both [TELEGRAM_BOT_TOKEN] and [WEATHER_API_KEY] are set to
    non-empty values, and then the bot holds exactly these two values;
    otherwise it prints one line and exits with status 1, naming the token
    when the token is unset or empty, whatever the key is. *)
Theorem cloud_main_needs_both_variables (getenv : string -> option string) :
  (forall bot,
      Cloud.main getenv = Cloud.Run bot
      <-> exists token key,
          getenv "TELEGRAM_BOT_TOKEN" = Some token /\ token <> ""
          /\ getenv "WEATHER_API_KEY" = Some key /\ key <> ""
          /\ bot = Cloud.__init__ token key)
  /\ (Cloud.not_ (getenv "TELEGRAM_BOT_TOKEN") = true ->
      Cloud.main getenv
      = Cloud.Exit ["❌ TELEGRAM_BOT_TOKEN environment variable not set!"] 1)
  /\ (Cloud.not_ (getenv "TELEGRAM_BOT_TOKEN") = false ->
      Cloud.not_ (getenv "WEATHER_API_KEY") = true ->
      Cloud.main getenv
      = Cloud.Exit ["❌ WEATHER_API_KEY environment variable not set!"] 1).
Proof.
  unfold Cloud.main. repeat apply conj.
  - intros bot. split.
    + destruct (Cloud.not_ (getenv "TELEGRAM_BOT_TOKEN")) eqn:Token;
        [ discriminate | ].
      destruct (Cloud.not_ (getenv "WEATHER_API_KEY")) eqn:Key;
        [ discriminate | ].
      apply not_is_false in Token as (token & Token & Token_set).
      apply not_is_false in Key as (key & Key & Key_set).
      rewrite Token, Key. cbn. intros [= <-].
      exists token, key. auto.
    + intros (token & key & Token & Token_set & Key & Key_set & ->).
      assert (T : Cloud.not_ (getenv "TELEGRAM_BOT_TOKEN") = false)
        by (apply not_is_false; eauto).
      assert (K : Cloud.not_ (getenv "WEATHER_API_KEY") = false)
        by (apply not_is_false; eauto).
      rewrite T, K, Token, Key. reflexivity.
  - intros ->. reflexivity.
  - intros -> ->. reflexivity.
Qed.

(** X18.  Every request sent by a bot that the main block of
    [weather_bot_cloud.py] started goes to the OpenWeatherMap URL and
    carries the value of [WEATHER_API_KEY] as [appid], with
    [units=metric]. *)
Theorem cloud_requests_carry_the_key {runtime : PyRuntime}
  (getenv : string -> option string) (bot : WeatherBot)
  (upstream : string -> list (string * string) -> http_outcome)
  (city : string) :
  Cloud.main getenv = Cloud.Run bot ->
  exists key,
    getenv "WEATHER_API_KEY" = Some key
    /\ filter is_request
         (events (get_weather weather_bot_cloud bot upstream city))
       = [ HttpGet "http://api.openweathermap.org/data/2.5/weather"
             [("q", city); ("appid", key); ("units", "metric")] ].
Proof.
  unfold Cloud.main.
  destruct (Cloud.not_ (getenv "TELEGRAM_BOT_TOKEN")) eqn:Token;
    [ discriminate | ].
  destruct (Cloud.not_ (getenv "WEATHER_API_KEY")) eqn:Key;
    [ discriminate | ].
  apply not_is_false in Key as (key & Key & _).
  rewrite Key. cbn [Cloud.value_of]. intros [= <-].
  exists key. split; [ reflexivity | ].
  apply (get_weather_requests weather_bot_cloud).
Qed.

Lemma cloud_requests_carry_the_key_witness :
  exists key,
    example_env "WEATHER_API_KEY" = Some key
    /\ filter is_request
         (events (@get_weather Example.runtime weather_bot_cloud
                    (Cloud.__init__ "123:abc" "0123456789abcdef")
                    (Example.always (Failed "timeout")) "London"))
       = [ HttpGet "http://api.openweathermap.org/data/2.5/weather"
             [("q", "London"); ("appid", key); ("units", "metric")] ].
Proof.
  exact (@cloud_requests_carry_the_key Example.runtime example_env
           (Cloud.__init__ "123:abc" "0123456789abcdef")
           (Example.always (Failed "timeout")) "London" eq_refl).
Defined.
